(** * LPG Cylinder Monitor: the [Index] page (src/Index(1).tsx)

    A shallow embedding of the page component: its five state slots, the
    four [onValue] subscriptions of its effect, the cleanup closure, the two
    write handlers and the unread badge of the Notifications tab.

    The page runs against three collaborators, each written out as far as
    the page touches it:
      - the JavaScript values and built-ins it applies to snapshot payloads
        ([Object.keys], [Object.values], spread, [slice], [reverse]);
      - the realtime database client ([ref], [onValue], [set]), as a
        registry of listeners with a log of the calls it received;
      - React ([useState] setters, the [useEffect] lifecycle). *)

From Stdlib Require Import String Ascii.
From Stdlib Require Import List Bool Arith NArith ZArith Lia.
From Stdlib Require Import Floats Sorted.
Import ListNotations.

Set Warnings "-inexact-float,-register-all".
Set Implicit Arguments.

(* ================================================================= *)
(** ** JavaScript values *)

Module JS.

(** A JavaScript string is its sequence of UTF-16 code units. *)
Definition code_unit := N.
Definition jsstring := list code_unit.

(** ASCII literals of the source, one code unit per character. *)
Fixpoint str (s : string) : jsstring :=
  match s with
  | EmptyString => []
  | String c s' => N_of_ascii c :: str s'
  end.

Fixpoint jsstring_eqb (a b : jsstring) : bool :=
  match a, b with
  | [], [] => true
  | x :: a', y :: b' => N.eqb x y && jsstring_eqb a' b'
  | _, _ => false
  end.

(** What [snapshot.val()] can return, and what the page builds from it.
    Numbers are binary64.  An array may have holes ([None]): the client
    exports integer-keyed children as a sparse array.  An object lists its
    own enumerable properties in the order JavaScript enumerates them. *)
Inductive json : Type :=
| JNull
| JBool (b : bool)
| JNum (x : float)
| JStr (s : jsstring)
| JArr (items : list (option json))
| JObj (props : list (jsstring * json)).

Definition is_null (v : json) : bool :=
  match v with JNull => true | _ => false end.

(** Normal or abrupt completion of an evaluation. *)
Inductive completion (A : Type) : Type :=
| Normal (a : A)
| Throw (e : jsstring).
Arguments Normal {A} a.
Arguments Throw {A} e.

(** Decimal rendering of an array index, as in property keys. *)
Fixpoint digits (u : Decimal.uint) : jsstring :=
  match u with
  | Decimal.Nil => []
  | Decimal.D0 u' => 48%N :: digits u'
  | Decimal.D1 u' => 49%N :: digits u'
  | Decimal.D2 u' => 50%N :: digits u'
  | Decimal.D3 u' => 51%N :: digits u'
  | Decimal.D4 u' => 52%N :: digits u'
  | Decimal.D5 u' => 53%N :: digits u'
  | Decimal.D6 u' => 54%N :: digits u'
  | Decimal.D7 u' => 55%N :: digits u'
  | Decimal.D8 u' => 56%N :: digits u'
  | Decimal.D9 u' => 57%N :: digits u'
  end.

Definition index_key (i : N) : jsstring := digits (N.to_uint i).

(** The value of a string of decimal digits, [None] if another code unit
    occurs in it. *)
Fixpoint parse_digits (acc : N) (k : jsstring) : option N :=
  match k with
  | [] => Some acc
  | c :: k' =>
      if (48 <=? c)%N && (c <=? 57)%N
      then parse_digits (acc * 10 + (c - 48))%N k'
      else None
  end.

(** A property key is an array index when it is the canonical decimal
    form of an integer below 2^32 - 1. *)
Definition array_index (k : jsstring) : option N :=
  match k with
  | [] => None
  | _ =>
      match parse_digits 0%N k with
      | Some n =>
          if jsstring_eqb (index_key n) k && (n <? 4294967295)%N
          then Some n else None
      | None => None
      end
  end.

(** Own enumerable properties of an array: the indices that are not
    holes, in ascending order. *)
Fixpoint array_entries (i : N) (items : list (option json))
  : list (jsstring * json) :=
  match items with
  | [] => []
  | None :: rest => array_entries (i + 1)%N rest
  | Some v :: rest => (index_key i, v) :: array_entries (i + 1)%N rest
  end.

(** Own enumerable properties of a string: one per code unit. *)
Fixpoint string_entries (i : N) (s : jsstring) : list (jsstring * json) :=
  match s with
  | [] => []
  | c :: rest => (index_key i, JStr [c]) :: string_entries (i + 1)%N rest
  end.

(** Own enumerable string-keyed properties, in enumeration order.
    Numbers and booleans have none. *)
Definition own_entries (v : json) : list (jsstring * json) :=
  match v with
  | JObj props => props
  | JArr items => array_entries 0%N items
  | JStr s => string_entries 0%N s
  | JNull | JBool _ | JNum _ => []
  end.

Definition TypeError_null : jsstring :=
  str "TypeError: Cannot convert undefined or null to object".

(** [Object.keys(v)] *)
Definition Object_keys (v : json) : completion (list jsstring) :=
  match v with
  | JNull => Throw TypeError_null
  | _ => Normal (map fst (own_entries v))
  end.

(** [Object.values(v)] *)
Definition Object_values (v : json) : completion (list json) :=
  match v with
  | JNull => Throw TypeError_null
  | _ => Normal (map snd (own_entries v))
  end.

Fixpoint lookup (k : jsstring) (props : list (jsstring * json))
  : option json :=
  match props with
  | [] => None
  | (k', v) :: rest => if jsstring_eqb k k' then Some v else lookup k rest
  end.

(** [v[k]] for an own key [k] of a non-null [v]; [None] is [undefined].
    The page reads only keys that [Object.keys] returned. *)
Definition get_own (v : json) (k : jsstring) : option json :=
  lookup k (own_entries v).

Fixpoint has_key (k : jsstring) (props : list (jsstring * json)) : bool :=
  match props with
  | [] => false
  | (k', _) :: rest => jsstring_eqb k k' || has_key k rest
  end.

Fixpoint replace_value (k : jsstring) (v : json)
  (props : list (jsstring * json)) : list (jsstring * json) :=
  match props with
  | [] => []
  | (k', v') :: rest =>
      if jsstring_eqb k k' then (k', v) :: rest
      else (k', v') :: replace_value k v rest
  end.

(** A new index key goes before the first property that is not an index
    or is a larger index. *)
Fixpoint insert_index (n : N) (k : jsstring) (v : json)
  (props : list (jsstring * json)) : list (jsstring * json) :=
  match props with
  | [] => [(k, v)]
  | (k', v') :: rest =>
      match array_index k' with
      | Some m =>
          if (m <? n)%N then (k', v') :: insert_index n k v rest
          else (k, v) :: props
      | None => (k, v) :: props
      end
  end.

(** Defining property [k] on an object under construction: an existing
    property keeps its place and takes the new value; a new index key is
    sorted in among the indices; any other new key goes last. *)
Definition define_property (props : list (jsstring * json))
  (kv : jsstring * json) : list (jsstring * json) :=
  let (k, v) := kv in
  if has_key k props then replace_value k v props
  else match array_index k with
       | Some n => insert_index n k v props
       | None => props ++ [(k, v)]
       end.

(** [{ ...props, ...source }]: the own enumerable properties of [source]
    are defined in order; [undefined] and [null] contribute none. *)
Definition spread (props : list (jsstring * json)) (source : option json)
  : list (jsstring * json) :=
  match source with
  | None => props
  | Some v => fold_left define_property (own_entries v) props
  end.

(** Relative index of [slice]: negative counts from the end, and the
    result is clamped to the array. *)
Definition relative_index (len i : Z) : Z :=
  if (i <? 0)%Z then Z.max (len + i) 0 else Z.min i len.

(** [arr.slice(start, end)] on a dense array; [end] may be omitted. *)
Definition slice (A : Type) (arr : list A) (start : Z) (end_ : option Z)
  : list A :=
  let len := Z.of_nat (length arr) in
  let k := relative_index len start in
  let final := match end_ with
               | None => len
               | Some e => relative_index len e
               end in
  firstn (Z.to_nat (final - k)) (skipn (Z.to_nat k) arr).

(** [arr.reverse()] *)
Definition reverse (A : Type) (arr : list A) : list A := rev arr.

End JS.
Import JS.

(* ================================================================= *)
(** ** The running system *)

(** The five [useState] slots of the page that its subscriptions write.
    [deviceData] and [config] start as [null], the two lists empty. *)
Record State : Type := mkState {
  deviceData : json;
  alerts : list json;
  logs : list json;
  config : json;
  isConnected : bool
}.

(** One call of a [useState] setter. *)
Inductive SetCall : Type :=
| SetDeviceData (v : json)
| SetAlerts (l : list json)
| SetLogs (l : list json)
| SetConfig (v : json)
| SetIsConnected (b : bool).

(** The arrow functions the effect hands to [onValue], by the
    subscription they belong to. *)
Inductive ValueCallback : Type := OnData | OnAlerts | OnLogs | OnConfig.
Inductive CancelCallback : Type := OnDataError.

(** A listener held by the database client. *)
Record Registration : Type := mkRegistration {
  reg_id : nat;
  reg_path : jsstring;
  reg_callback : ValueCallback;
  reg_cancel : option CancelCallback
}.

(** The database client: the listeners it holds, the next listener
    identity, the calls it has received, and which writes the store
    refuses. *)
Record Database : Type := mkDatabase {
  listeners : list Registration;
  next_id : nat;
  onValue_calls : list jsstring;
  unsubscribe_calls : list nat;
  set_calls : list (jsstring * json);
  write_denied : jsstring -> bool
}.

Record Clock : Type := mkClock {
  iso_now : jsstring;   (* new Date().toISOString() *)
  ms_now : float        (* Date.now() *)
}.

Record Sys : Type := mkSys {
  view : State;
  setter_calls : list SetCall;
  console_errors : list (jsstring * jsstring);
  db : Database;
  clock : Clock
}.

(** Effectful code: it reads and updates the system and completes
    normally or abruptly. *)
Definition Eff (A : Type) : Type := Sys -> completion A * Sys.

Definition ret (A : Type) (a : A) : Eff A := fun s => (Normal a, s).

Definition bind (A B : Type) (m : Eff A) (k : A -> Eff B) : Eff B :=
  fun s =>
    match m s with
    | (Normal a, s') => k a s'
    | (Throw e, s') => (Throw e, s')
    end.

Definition lift (A : Type) (c : completion A) : Eff A := fun s => (c, s).

Declare Scope eff_scope.
Delimit Scope eff_scope with eff.
Notation "x <- m ;; k" := (bind m (fun x => k))
  (at level 61, m at next level, right associativity) : eff_scope.
Notation "m ;; k" := (bind m (fun _ => k))
  (at level 61, right associativity) : eff_scope.
Open Scope eff_scope.

Definition with_db (f : Database -> Database) (s : Sys) : Sys :=
  mkSys (view s) (setter_calls s) (console_errors s) (f (db s)) (clock s).

(** *** React: state setters *)

Definition apply_set (c : SetCall) (st : State) : State :=
  match c with
  | SetDeviceData v =>
      mkState v (alerts st) (logs st) (config st) (isConnected st)
  | SetAlerts l =>
      mkState (deviceData st) l (logs st) (config st) (isConnected st)
  | SetLogs l =>
      mkState (deviceData st) (alerts st) l (config st) (isConnected st)
  | SetConfig v =>
      mkState (deviceData st) (alerts st) (logs st) v (isConnected st)
  | SetIsConnected b =>
      mkState (deviceData st) (alerts st) (logs st) (config st) b
  end.

(** A setter replaces its slot with the given value and is recorded. *)
Definition set_state (c : SetCall) : Eff unit :=
  fun s =>
    (Normal tt,
     mkSys (apply_set c (view s)) (setter_calls s ++ [c])
           (console_errors s) (db s) (clock s)).

Definition setDeviceData (v : json) : Eff unit := set_state (SetDeviceData v).
Definition setAlerts (l : list json) : Eff unit := set_state (SetAlerts l).
Definition setLogs (l : list json) : Eff unit := set_state (SetLogs l).
Definition setConfig (v : json) : Eff unit := set_state (SetConfig v).
Definition setIsConnected (b : bool) : Eff unit :=
  set_state (SetIsConnected b).

(** *** Console and clock *)

Definition console_error (label : jsstring) (error : jsstring) : Eff unit :=
  fun s =>
    (Normal tt,
     mkSys (view s) (setter_calls s) (console_errors s ++ [(label, error)])
           (db s) (clock s)).

Definition Date_toISOString : Eff jsstring :=
  fun s => (Normal (iso_now (clock s)), s).

Definition Date_now : Eff float :=
  fun s => (Normal (ms_now (clock s)), s).

(** *** The database client *)

Module Firebase.

(** [snapshot.val()] is [null] exactly when the path holds no data. *)
Record DataSnapshot : Type := mkSnapshot { val : json }.

Definition exists_ (snapshot : DataSnapshot) : bool :=
  negb (is_null (val snapshot)).

(** [ref(database, path)] *)
Definition ref (path : jsstring) : jsstring := path.

(** [onValue(ref, callback, cancelCallback?)] adds a listener and returns
    its unsubscribe function, represented by the listener's identity. *)
Definition onValue (path : jsstring) (callback : ValueCallback)
  (cancel : option CancelCallback) : Eff nat :=
  fun s =>
    let d := db s in
    let h := next_id d in
    (Normal h,
     with_db (fun _ =>
       mkDatabase (listeners d ++ [mkRegistration h path callback cancel])
                  (S h) (onValue_calls d ++ [path]) (unsubscribe_calls d)
                  (set_calls d) (write_denied d)) s).

(** Calling an unsubscribe function removes its listener; when the
    listener is already gone nothing is removed. *)
Definition unsubscribe (h : nat) : Eff unit :=
  fun s =>
    let d := db s in
    (Normal tt,
     with_db (fun _ =>
       mkDatabase (filter (fun r => negb (Nat.eqb (reg_id r) h)) (listeners d))
                  (next_id d) (onValue_calls d) (unsubscribe_calls d ++ [h])
                  (set_calls d) (write_denied d)) s).

Definition write_rejected : jsstring := str "Error: PERMISSION_DENIED".

(** [await set(ref, value)]: the write is issued; the awaited promise
    rejects when the store refuses it.  Change notifications that the
    write causes arrive later, as value events. *)
Definition set (path : jsstring) (value : json) : Eff unit :=
  fun s =>
    let d := db s in
    let s' := with_db (fun _ =>
                mkDatabase (listeners d) (next_id d) (onValue_calls d)
                           (unsubscribe_calls d)
                           (set_calls d ++ [(path, value)])
                           (write_denied d)) s in
    if write_denied d path then (Throw write_rejected, s')
    else (Normal tt, s').

End Firebase.
Import Firebase.

(* ================================================================= *)
(** ** The page component *)

(** [useState] initial values. *)
Definition initial_state : State := mkState JNull [] [] JNull false.

(** [const [hno] = useState("23")]: the house number. *)
Definition default_hno : jsstring := str "23".

(** The store paths, as the template literals spell them. *)
Definition current_path (hno : jsstring) : jsstring :=
  str "/devices/" ++ hno ++ str "/current".
Definition alerts_path (hno : jsstring) : jsstring :=
  str "/devices/" ++ hno ++ str "/alerts".
Definition logs_path (hno : jsstring) : jsstring :=
  str "/devices/" ++ hno ++ str "/logs/events".
Definition config_path (hno : jsstring) : jsstring :=
  str "/devices/" ++ hno ++ str "/config".
Definition calibrate_path (hno : jsstring) : jsstring :=
  str "/devices/" ++ hno ++ str "/commands/calibrate".

(** *** Subscription callbacks *)

(** Value callback of the telemetry subscription. *)
Definition onData (snapshot : DataSnapshot) : Eff unit :=
  if exists_ snapshot then
    setDeviceData (val snapshot) ;;
    setIsConnected true
  else
    now <- Date_toISOString ;;
    setDeviceData
      (JObj [ (str "temperature", JNum 28.5);
              (str "humidity", JNum 65);
              (str "lpgLevel", JNum 8500);
              (str "flameStatus", JBool false);
              (str "gasLeakStatus", JBool false);
              (str "timestamp", JStr now);
              (str "location",
               JObj [ (str "lat", JNum 6.9271);
                      (str "lng", JNum 79.8612) ]) ]) ;;
    setIsConnected true.

(** Cancel callback of the telemetry subscription. *)
Definition onDataError (error : jsstring) : Eff unit :=
  console_error (str "Firebase error:") error ;;
  setIsConnected false.

(** [key => ({ id: key, ...alertsData[key] })] *)
Definition alert_entry (alertsData : json) (key : jsstring) : json :=
  JObj (spread [(str "id", JStr key)] (get_own alertsData key)).

(** The message of the placeholder alert, code unit by code unit where
    the source text leaves ASCII. *)
Definition mock_alert_message : jsstring :=
  str "LPG Level Low " ++ [226; 8364; 8221]%N ++ str " Auto-book triggered".

(** Value callback of the alerts subscription. *)
Definition onAlerts (snapshot : DataSnapshot) : Eff unit :=
  if exists_ snapshot then
    let alertsData := val snapshot in
    keys <- lift (Object_keys alertsData) ;;
    let alertsArray := map (alert_entry alertsData) keys in
    setAlerts (slice alertsArray 0 (Some 10%Z))
  else
    now <- Date_toISOString ;;
    setAlerts
      [ JObj [ (str "id", JStr (str "1"));
               (str "type", JStr (str "auto-book"));
               (str "message", JStr mock_alert_message);
               (str "timestamp", JStr now) ] ].

(** Value callback of the logs subscription. *)
Definition onLogs (snapshot : DataSnapshot) : Eff unit :=
  if exists_ snapshot then
    let logsData := val snapshot in
    logsArray <- lift (Object_values logsData) ;;
    setLogs (reverse (slice logsArray (-50) None))
  else
    now <- Date_toISOString ;;
    setLogs
      [ JObj [ (str "timestamp", JStr now);
               (str "eventType", JStr (str "Normal"));
               (str "temperature", JNum 28.5);
               (str "humidity", JNum 65);
               (str "lpgLevel", JNum 8500);
               (str "flameStatus", JBool false);
               (str "gasLeakStatus", JBool false) ] ].

(** Value callback of the config subscription. *)
Definition onConfig (snapshot : DataSnapshot) : Eff unit :=
  if exists_ snapshot then setConfig (val snapshot)
  else ret tt.

Definition run_value_callback (cb : ValueCallback) (snapshot : DataSnapshot)
  : Eff unit :=
  match cb with
  | OnData => onData snapshot
  | OnAlerts => onAlerts snapshot
  | OnLogs => onLogs snapshot
  | OnConfig => onConfig snapshot
  end.

Definition run_cancel_callback (cb : CancelCallback) (error : jsstring)
  : Eff unit :=
  match cb with
  | OnDataError => onDataError error
  end.

(** *** The effect and its cleanup *)

(** The closure the effect returns: the four unsubscribe functions. *)
Record Cleanup : Type := mkCleanup {
  unsubscribeData : nat;
  unsubscribeAlerts : nat;
  unsubscribeLogs : nat;
  unsubscribeConfig : nat
}.

(** Body of [useEffect(..., [hno])]. *)
Definition effect (hno : jsstring) : Eff Cleanup :=
  let dataRef := ref (current_path hno) in
  unsubscribeData <- onValue dataRef OnData (Some OnDataError) ;;
  let alertsRef := ref (alerts_path hno) in
  unsubscribeAlerts <- onValue alertsRef OnAlerts None ;;
  let logsRef := ref (logs_path hno) in
  unsubscribeLogs <- onValue logsRef OnLogs None ;;
  let configRef := ref (config_path hno) in
  unsubscribeConfig <- onValue configRef OnConfig None ;;
  ret (mkCleanup unsubscribeData unsubscribeAlerts
                 unsubscribeLogs unsubscribeConfig).

Definition cleanup (c : Cleanup) : Eff unit :=
  unsubscribe (unsubscribeData c) ;;
  unsubscribe (unsubscribeAlerts c) ;;
  unsubscribe (unsubscribeLogs c) ;;
  unsubscribe (unsubscribeConfig c).

(** *** Write handlers *)

Definition handleSaveConfig (hno : jsstring) (newConfig : json) : Eff unit :=
  let configRef := ref (config_path hno) in
  set configRef newConfig.

Definition handleCalibrate (hno : jsstring) : Eff unit :=
  let calibrateRef := ref (calibrate_path hno) in
  now <- Date_now ;;
  set calibrateRef
      (JObj [ (str "command", JStr (str "START_CALIBRATION"));
              (str "timestamp", JNum now) ]).

(** *** React: the effect's lifecycle *)

(** A mounted page: the dependency the effect last ran with and the
    cleanup it returned. *)
Record Mounted : Type := mkMounted {
  mounted_hno : jsstring;
  mounted_cleanup : Cleanup
}.

Definition mount (hno : jsstring) : Eff Mounted :=
  c <- effect hno ;;
  ret (mkMounted hno c).

(** A render with dependency [hno']: when it differs from the last one
    the previous cleanup runs, then the effect runs again. *)
Definition rerender (m : Mounted) (hno' : jsstring) : Eff Mounted :=
  if jsstring_eqb (mounted_hno m) hno' then ret m
  else
    cleanup (mounted_cleanup m) ;;
    c <- effect hno' ;;
    ret (mkMounted hno' c).

Definition unmount (m : Mounted) : Eff unit :=
  cleanup (mounted_cleanup m).

(** *** Events from the store *)

Fixpoint run_all (A : Type) (f : A -> Eff unit) (l : list A) : Eff unit :=
  match l with
  | [] => ret tt
  | a :: rest => f a ;; run_all f rest
  end.

Definition listens_at (path : jsstring) (r : Registration) : bool :=
  jsstring_eqb (reg_path r) path.

(** A value event at [path]: every listener there gets the snapshot. *)
Definition value_event (path : jsstring) (snapshot : DataSnapshot)
  : Eff unit :=
  fun s =>
    run_all (fun r => run_value_callback (reg_callback r) snapshot)
            (filter (listens_at path) (listeners (db s))) s.

(** A listener is told of an error only if it registered a cancel
    callback. *)
Definition deliver_error (error : jsstring) (r : Registration) : Eff unit :=
  match reg_cancel r with
  | Some cb => run_cancel_callback cb error
  | None => ret tt
  end.

(** A transport error at [path]: the client drops the listeners there and
    tells each of them. *)
Definition error_event (path : jsstring) (error : jsstring) : Eff unit :=
  fun s =>
    let d := db s in
    let hit := filter (listens_at path) (listeners d) in
    let s' := with_db (fun _ =>
                mkDatabase
                  (filter (fun r => negb (listens_at path r)) (listeners d))
                  (next_id d) (onValue_calls d) (unsubscribe_calls d)
                  (set_calls d) (write_denied d)) s in
    run_all (deliver_error error) hit s'.

(** *** The Notifications tab label *)

Inductive Node : Type :=
| TextNode (s : jsstring)
| Badge (count : nat).

Section NotificationsTab.

(** The records of the notification hook's history; the page reads only
    their [read] flag. *)
Variable NotificationRecord : Type.
Variable read : NotificationRecord -> bool.

(** [notificationHistory.filter(n => !n.read).length] *)
Definition unread_count (notificationHistory : list NotificationRecord)
  : nat :=
  length (filter (fun n => negb (read n)) notificationHistory).

(** Children of the Notifications [TabsTrigger]. *)
Definition notifications_label
  (notificationHistory : list NotificationRecord) : list Node :=
  TextNode (str "Notifications")
  :: (if 0 <? unread_count notificationHistory
      then [Badge (unread_count notificationHistory)]
      else []).

End NotificationsTab.

(** *** A system to run the page in *)

Definition fresh_database : Database :=
  mkDatabase [] 0 [] [] [] (fun _ => false).

Definition boot (c : Clock) : Sys :=
  mkSys initial_state [] [] fresh_database c.

Definition exec (A : Type) (m : Eff A) (s : Sys) : Sys := snd (m s).
Definition outcome (A : Type) (m : Eff A) (s : Sys) : completion A :=
  fst (m s).

(* ================================================================= *)
(** ** Notions the statements use *)

(** The array [alertsArray] that the alerts callback builds from a
    payload that is not [null]. *)
Definition decoded_alerts (alertsData : json) : list json :=
  map (alert_entry alertsData) (map fst (own_entries alertsData)).

(** The array [logsArray] that the logs callback reads from a payload
    that is not [null]. *)
Definition decoded_logs (logsData : json) : list json :=
  map snd (own_entries logsData).

(** [v.k] on an object the page built. *)
Definition field (k : string) (v : json) : option json :=
  get_own v (str k).

(** *** Chronological order of log entries by their ISO timestamps *)

Fixpoint jsstring_leb (a b : jsstring) : bool :=
  match a, b with
  | [], _ => true
  | _ :: _, [] => false
  | x :: a', y :: b' =>
      if (x <? y)%N then true
      else if (y <? x)%N then false
      else jsstring_leb a' b'
  end.

Definition not_later (a b : json) : Prop :=
  match field "timestamp" a, field "timestamp" b with
  | Some (JStr ta), Some (JStr tb) => jsstring_leb ta tb = true
  | _, _ => False
  end.

(** *** What the effect registers *)

(** The four listeners of one run of the effect, the first of them with
    identity [h]. *)
Definition page_registrations (h : nat) (hno : jsstring)
  : list Registration :=
  [ mkRegistration h (current_path hno) OnData (Some OnDataError);
    mkRegistration (S h) (alerts_path hno) OnAlerts None;
    mkRegistration (S (S h)) (logs_path hno) OnLogs None;
    mkRegistration (S (S (S h))) (config_path hno) OnConfig None ].

(** The page is mounted for [hno] in [s]: the client holds the listeners
    that mounting it on a fresh client registers. *)
Definition page_mounted (hno : jsstring) (s : Sys) : Prop :=
  listeners (db s) = listeners (db (exec (mount hno) (boot (clock s)))).

(** The page listens for [hno] in [s]: the client holds the listeners of
    one run of the effect for [hno], whichever run it was, less those an
    error has removed since. *)
Definition page_listening (hno : jsstring) (s : Sys) : Prop :=
  exists (h : nat) (keep : Registration -> bool),
    listeners (db s) = filter keep (page_registrations h hno).

(** Some listener is registered at [path]. *)
Definition subscribed_at (path : jsstring) (s : Sys) : Prop :=
  exists r, In r (listeners (db s)) /\ reg_path r = path.

(** The unsubscribe functions a cleanup closure holds, in call order. *)
Definition handles (c : Cleanup) : list nat :=
  [ unsubscribeData c; unsubscribeAlerts c;
    unsubscribeLogs c; unsubscribeConfig c ].

(** A listener survives a cleanup when it is none of the four. *)
Definition kept (c : Cleanup) (r : Registration) : bool :=
  negb (Nat.eqb (reg_id r) (unsubscribeData c)) &&
  negb (Nat.eqb (reg_id r) (unsubscribeAlerts c)) &&
  negb (Nat.eqb (reg_id r) (unsubscribeLogs c)) &&
  negb (Nat.eqb (reg_id r) (unsubscribeConfig c)).

(** The client never handed out an identity it would hand out again. *)
Definition identities_fresh (d : Database) : Prop :=
  Forall (fun r => reg_id r < next_id d) (listeners d).

(** *** Sample inputs *)

Definition sample_clock : Clock :=
  mkClock (str "2024-05-01T10:00:00.000Z") 1714557600000.

(** Twelve alerts under keys [alert100] .. [alert111]. *)
Definition sample_alerts : DataSnapshot :=
  mkSnapshot
    (JObj (map (fun i : nat =>
                  (str "alert" ++ index_key (N.of_nat (100 + i)),
                   JObj [ (str "type", JStr (str "gas-leak"));
                          (str "message", JStr (str "Gas leak detected"));
                          (str "timestamp",
                           JStr (str "2024-05-01T09:" ++
                                 index_key (N.of_nat (10 + i)) ++
                                 str ":00.000Z")) ]))
               (seq 0 12))).

(** Fifty-three log entries, one a second, oldest first. *)
Definition sample_logs : DataSnapshot :=
  mkSnapshot
    (JObj (map (fun i : nat =>
                  (str "event" ++ index_key (N.of_nat (100 + i)),
                   JObj [ (str "timestamp",
                           JStr (str "2024-05-01T09:00:" ++
                                 index_key (N.of_nat (100 + i))));
                          (str "eventType", JStr (str "Normal")) ]))
               (seq 0 53))).

(** No data at the path. *)
Definition empty_snapshot : DataSnapshot := mkSnapshot JNull.

(** A reading, a configuration and an error as the store delivers them. *)
Definition sample_reading : DataSnapshot :=
  mkSnapshot
    (JObj [ (str "temperature", JNum 31.25);
            (str "humidity", JNum 58);
            (str "lpgLevel", JNum 7200);
            (str "flameStatus", JBool false);
            (str "gasLeakStatus", JBool true);
            (str "timestamp", JStr (str "2024-05-01T09:59:58.000Z")) ]).

Definition sample_config : DataSnapshot :=
  mkSnapshot (JObj [ (str "brand", JStr (str "X")) ]).

Definition sample_error : jsstring := str "Error: permission_denied".

(** Notification records with an identity and a read flag. *)
Record Notice : Type := mkNotice {
  notice_id : jsstring;
  notice_read : bool
}.

Definition history_all_read : list Notice :=
  [ mkNotice (str "n1") true; mkNotice (str "n2") true ].

Definition history_two_unread : list Notice :=
  [ mkNotice (str "n1") false; mkNotice (str "n2") true;
    mkNotice (str "n3") false ].

(** The page mounted for house 23 on a fresh client. *)
Definition mounted_sys : Sys := exec (mount default_hno) (boot sample_clock).

(** ... after a reading arrived: the page shows it and is connected. *)
Definition connected_sys : Sys :=
  exec (value_event (current_path default_hno) sample_reading) mounted_sys.

(** ... after a configuration arrived as well. *)
Definition configured_sys : Sys :=
  exec (value_event (config_path default_hno) sample_config) connected_sys.

(** The connected page after an error on its alerts subscription: three
    listeners are left. *)
Definition alerts_failed_sys : Sys :=
  exec (error_event (alerts_path default_hno) sample_error) connected_sys.

(** The connected page unmounted and mounted again, then after an error
    on its telemetry subscription: the listeners are new ones, and the
    telemetry one is gone. *)
Definition remounted_sys : Sys :=
  exec (error_event (current_path default_hno) sample_error)
       (exec (mount default_hno)
             (exec (unmount (mkMounted default_hno
                                       (mkCleanup 0 1 2 3)))
                   connected_sys)).

(* ================================================================= *)
(** ** The page over time *)

(** The object literals of the three placeholder branches. *)
Definition mock_reading (now : jsstring) : json :=
  JObj [ (str "temperature", JNum 28.5);
         (str "humidity", JNum 65);
         (str "lpgLevel", JNum 8500);
         (str "flameStatus", JBool false);
         (str "gasLeakStatus", JBool false);
         (str "timestamp", JStr now);
         (str "location",
          JObj [ (str "lat", JNum 6.9271); (str "lng", JNum 79.8612) ]) ].

Definition mock_alert (now : jsstring) : json :=
  JObj [ (str "id", JStr (str "1"));
         (str "type", JStr (str "auto-book"));
         (str "message", JStr mock_alert_message);
         (str "timestamp", JStr now) ].

Definition mock_log (now : jsstring) : json :=
  JObj [ (str "timestamp", JStr now);
         (str "eventType", JStr (str "Normal"));
         (str "temperature", JNum 28.5);
         (str "humidity", JNum 65);
         (str "lpgLevel", JNum 8500);
         (str "flameStatus", JBool false);
         (str "gasLeakStatus", JBool false) ].

(** What each value callback puts in its slot. *)
Definition shown_reading (snapshot : DataSnapshot) (c : Clock) : json :=
  if exists_ snapshot then val snapshot else mock_reading (iso_now c).

Definition shown_alerts (snapshot : DataSnapshot) (c : Clock) : list json :=
  if exists_ snapshot then firstn 10 (decoded_alerts (val snapshot))
  else [mock_alert (iso_now c)].

Definition shown_logs (snapshot : DataSnapshot) (c : Clock) : list json :=
  if exists_ snapshot
  then rev (skipn (length (decoded_logs (val snapshot)) - 50)
                  (decoded_logs (val snapshot)))
  else [mock_log (iso_now c)].

(** The four paths the effect subscribes to. *)
Definition page_paths (hno : jsstring) : list jsstring :=
  [current_path hno; alerts_path hno; logs_path hno; config_path hno].

(** The cleanup closure of the effect run whose first listener is [h]. *)
Definition cleanup_from (h : nat) : Cleanup :=
  mkCleanup h (S h) (S (S h)) (S (S (S h))).

(** What can happen to a mounted page: the store delivers a value or an
    error at a path, the user saves a configuration or starts a
    calibration, React renders the page with a house number, time passes. *)
Inductive Event : Type :=
| ValueAt (path : jsstring) (snapshot : DataSnapshot)
| ErrorAt (path : jsstring) (error : jsstring)
| SaveConfig (newConfig : json)
| Calibrate
| Render (hno : jsstring)
| Tick (c : Clock).

Definition step (ms : Mounted * Sys) (e : Event) : Mounted * Sys :=
  let (m, s) := ms in
  match e with
  | ValueAt path snapshot => (m, exec (value_event path snapshot) s)
  | ErrorAt path error => (m, exec (error_event path error) s)
  | SaveConfig newConfig =>
      (m, exec (handleSaveConfig (mounted_hno m) newConfig) s)
  | Calibrate => (m, exec (handleCalibrate (mounted_hno m)) s)
  | Render hno =>
      match rerender m hno s with
      | (Normal m', s') => (m', s')
      | (Throw _, s') => (m, s')
      end
  | Tick c =>
      (m, mkSys (view s) (setter_calls s) (console_errors s) (db s) c)
  end.

Definition run (ms : Mounted * Sys) (trace : list Event) : Mounted * Sys :=
  fold_left step trace ms.

(** The page just mounted for [hno] on a fresh client. *)
Definition started (hno : jsstring) (c : Clock) : Mounted * Sys :=
  (mkMounted hno (cleanup_from 0), exec (mount hno) (boot c)).

(** The listeners the client holds are the ones of the last run of the
    effect, less those an error removed; subscribe and unsubscribe calls
    differ by the four live subscriptions. *)
Definition lifecycle (m : Mounted) (d : Database) : Prop :=
  exists (h : nat) (keep : Registration -> bool),
    mounted_cleanup m = cleanup_from h /\
    listeners d = filter keep (page_registrations h (mounted_hno m)) /\
    length (onValue_calls d) = length (unsubscribe_calls d) + 4.

(** The number of user actions in a trace that write to the store. *)
Definition write_actions (trace : list Event) : nat :=
  length (filter (fun e => match e with
                           | SaveConfig _ | Calibrate => true
                           | _ => false
                           end) trace).

(** A trace for the samples: a reading, a configuration, then both paths
    turn empty, an error on the alerts path and a save. *)
Definition sample_trace : list Event :=
  [ ValueAt (current_path default_hno) sample_reading;
    ValueAt (config_path default_hno) sample_config;
    ValueAt (alerts_path default_hno) sample_alerts;
    ValueAt (logs_path default_hno) sample_logs;
    ValueAt (config_path default_hno) empty_snapshot;
    ErrorAt (alerts_path default_hno) sample_error;
    SaveConfig (val sample_config);
    Render (str "24");
    ValueAt (current_path (str "24")) empty_snapshot ].

(** An alert stored with an [id] field of its own. *)
Definition sample_alert_with_id : DataSnapshot :=
  mkSnapshot
    (JObj [ (str "-Nx1",
             JObj [ (str "type", JStr (str "gas-leak"));
                    (str "id", JStr (str "custom")) ]) ]).

(** Comparing two path suffixes of the source text. *)
Ltac compare_suffixes :=
  repeat match goal with
         | |- context [jsstring_eqb (str ?a) (str ?b)] =>
             let v := eval vm_compute in (jsstring_eqb (str a) (str b)) in
             change (jsstring_eqb (str a) (str b)) with v
         end.

(** Reading a slot of the system after a setter ran. *)
Ltac slots :=
  unfold exec, outcome, setDeviceData, setAlerts, setLogs, setConfig,
    setIsConnected, set_state;
  cbn [fst snd view setter_calls console_errors db clock apply_set
       deviceData alerts logs config isConnected].

(* ================================================================= *)
(** ** Built-ins *)

Unset Implicit Arguments.

Lemma firstn_min_length (A : Type) (n : nat) (l : list A) :
  firstn (Nat.min n (length l)) l = firstn n l.
Proof.
  destruct (Nat.le_ge_cases n (length l)) as [H | H].
  - now rewrite Nat.min_l.
  - rewrite Nat.min_r by exact H.
    now rewrite firstn_all, firstn_all2.
Qed.

(** [arr.slice(0, n)] is the first [n] elements. *)
Lemma slice_from_start (A : Type) (arr : list A) (n : nat) :
  slice arr 0 (Some (Z.of_nat n)) = firstn n arr.
Proof.
  unfold slice, relative_index.
  replace (0 <? 0)%Z with false by reflexivity.
  destruct (Z.ltb_spec (Z.of_nat n) 0) as [E | E]; [lia |].
  rewrite (Z.min_l 0) by lia. cbn [Z.to_nat skipn].
  replace (Z.to_nat (Z.min (Z.of_nat n) (Z.of_nat (length arr)) - 0))
    with (Nat.min n (length arr)) by lia.
  apply firstn_min_length.
Qed.

(** [arr.slice(-n)] for positive [n] is the last [n] elements. *)
Lemma slice_from_end (A : Type) (arr : list A) (n : nat) :
  0 < n ->
  slice arr (- Z.of_nat n) None = skipn (length arr - n) arr.
Proof.
  intros Hn. unfold slice, relative_index.
  destruct (Z.ltb_spec (- Z.of_nat n) 0) as [E | E]; [| lia].
  replace (Z.to_nat (Z.max (Z.of_nat (length arr) + - Z.of_nat n) 0))
    with (length arr - n) by lia.
  apply firstn_all2. rewrite length_skipn. lia.
Qed.

Lemma Object_keys_not_null (v : json) :
  is_null v = false -> Object_keys v = Normal (map fst (own_entries v)).
Proof. destruct v; simpl; intros H; [discriminate | reflexivity ..]. Qed.

Lemma Object_values_not_null (v : json) :
  is_null v = false -> Object_values v = Normal (map snd (own_entries v)).
Proof. destruct v; simpl; intros H; [discriminate | reflexivity ..]. Qed.

Lemma exists_not_null (snapshot : DataSnapshot) :
  exists_ snapshot = true -> is_null (val snapshot) = false.
Proof. unfold exists_. now destruct (is_null (val snapshot)). Qed.

(* ================================================================= *)
(** ** Alerts subscription *)

Lemma onAlerts_exists (snapshot : DataSnapshot) (s : Sys) :
  exists_ snapshot = true ->
  onAlerts snapshot s =
  setAlerts (firstn 10 (decoded_alerts (val snapshot))) s.
Proof.
  intros H. unfold onAlerts. rewrite H.
  unfold bind, lift.
  rewrite (Object_keys_not_null _ (exists_not_null _ H)).
  change 10%Z with (Z.of_nat 10). now rewrite slice_from_start.
Qed.

(** C1. A snapshot on the alerts subscription whose path holds data
    leaves in the alerts slot exactly the first ten entries of the decoded
    payload, all of them when there are fewer; the callback completes
    normally, and the slot never holds more than ten entries whatever the
    size of the payload. *)
Theorem alerts_first_ten (snapshot : DataSnapshot) (s : Sys) :
  exists_ snapshot = true ->
  let s' := exec (onAlerts snapshot) s in
  outcome (onAlerts snapshot) s = Normal tt /\
  alerts (view s') = firstn 10 (decoded_alerts (val snapshot)) /\
  length (alerts (view s')) =
    Nat.min 10 (length (decoded_alerts (val snapshot))) /\
  (length (decoded_alerts (val snapshot)) <= 10 ->
   alerts (view s') = decoded_alerts (val snapshot)) /\
  length (alerts (view s')) <= 10.
Proof.
  intros H s'. subst s'. unfold exec, outcome.
  rewrite (onAlerts_exists _ _ H). slots.
  repeat split.
  - apply length_firstn.
  - intros Hle. now apply firstn_all2.
  - apply firstn_le_length.
Qed.

(** C1 at twelve alerts: ten are kept. *)
Lemma alerts_first_ten_witness :
  exists_ sample_alerts = true /\
  alerts (view (exec (onAlerts sample_alerts) (boot sample_clock))) =
    firstn 10 (decoded_alerts (val sample_alerts)) /\
  length (alerts (view (exec (onAlerts sample_alerts) (boot sample_clock))))
    = 10.
Proof.
  split; [reflexivity |].
  destruct (alerts_first_ten sample_alerts (boot sample_clock) eq_refl)
    as (_ & Hfirst & Hlen & _).
  split; [exact Hfirst | exact Hlen].
Defined.

(* ================================================================= *)
(** ** Logs subscription *)

Section Chronology.

Variable before : json -> json -> Prop.

Lemma Sorted_skipn (n : nat) (l : list json) :
  Sorted before l -> Sorted before (skipn n l).
Proof.
  revert l. induction n as [| n IH]; intros l Hl; [exact Hl |].
  destruct l as [| a l]; [constructor |].
  simpl. apply IH. now apply Sorted_inv in Hl.
Qed.

Lemma Sorted_rev_append (l acc : list json) :
  Sorted before l ->
  Sorted (fun a b => before b a) acc ->
  (forall x y, hd_error l = Some x -> hd_error acc = Some y -> before y x) ->
  Sorted (fun a b => before b a) (rev_append l acc).
Proof.
  revert acc. induction l as [| a l IH]; intros acc Hl Hacc Hlink.
  - exact Hacc.
  - simpl. apply Sorted_inv in Hl. destruct Hl as [Hl Hhd].
    apply IH; [exact Hl | |].
    + constructor; [exact Hacc |].
      destruct acc as [| y acc]; constructor.
      now apply Hlink.
    + intros x y Hx Hy. simpl in Hy. injection Hy as <-.
      destruct l as [| b l]; [discriminate |].
      simpl in Hx. injection Hx as <-.
      now apply HdRel_inv in Hhd.
Qed.

Lemma Sorted_rev (l : list json) :
  Sorted before l -> Sorted (fun a b => before b a) (rev l).
Proof.
  intros Hl. rewrite rev_alt.
  apply Sorted_rev_append; [exact Hl | constructor |].
  intros x y _ Hy. discriminate.
Qed.

End Chronology.

Lemma onLogs_exists (snapshot : DataSnapshot) (s : Sys) :
  exists_ snapshot = true ->
  onLogs snapshot s =
  setLogs (rev (skipn (length (decoded_logs (val snapshot)) - 50)
                      (decoded_logs (val snapshot)))) s.
Proof.
  intros H. unfold onLogs. rewrite H.
  unfold bind, lift.
  rewrite (Object_values_not_null _ (exists_not_null _ H)).
  change (-50)%Z with (- Z.of_nat 50)%Z.
  rewrite slice_from_end by lia. reflexivity.
Qed.

(** C2. A snapshot on the logs subscription whose path holds a list of
    [n] entries leaves in the logs slot the last [min n 50] of them in
    reverse order; the callback completes normally, the slot never holds
    more than fifty entries, and when the entries arrive oldest first the
    slot is ordered newest first. *)
Theorem logs_last_fifty_newest_first
  (before : json -> json -> Prop) (snapshot : DataSnapshot) (s : Sys) :
  exists_ snapshot = true ->
  let entries := decoded_logs (val snapshot) in
  let n := length entries in
  let s' := exec (onLogs snapshot) s in
  outcome (onLogs snapshot) s = Normal tt /\
  logs (view s') = rev (skipn (n - Nat.min n 50) entries) /\
  length (logs (view s')) = Nat.min n 50 /\
  length (logs (view s')) <= 50 /\
  (Sorted before entries ->
   Sorted (fun newer older => before older newer) (logs (view s'))).
Proof.
  intros H entries n s'. subst s'. unfold exec, outcome.
  rewrite (onLogs_exists _ _ H). slots.
  fold entries. fold n.
  replace (n - Nat.min n 50) with (n - 50) by lia.
  assert (Hlen : length (rev (skipn (n - 50) entries)) = Nat.min n 50).
  { rewrite length_rev, length_skipn. fold n. lia. }
  repeat split.
  - exact Hlen.
  - rewrite Hlen. lia.
  - intros Hsorted. apply Sorted_rev. now apply Sorted_skipn.
Qed.

Lemma sample_logs_oldest_first :
  Sorted not_later (decoded_logs (val sample_logs)).
Proof.
  vm_compute. repeat (constructor; try reflexivity).
Qed.

(** C2 at fifty-three entries: the three oldest are dropped and the
    newest comes first. *)
Lemma logs_last_fifty_newest_first_witness :
  exists_ sample_logs = true /\
  length (logs (view (exec (onLogs sample_logs) (boot sample_clock)))) = 50 /\
  Sorted (fun newer older => not_later older newer)
         (logs (view (exec (onLogs sample_logs) (boot sample_clock)))).
Proof.
  split; [reflexivity |].
  destruct (logs_last_fifty_newest_first not_later sample_logs
              (boot sample_clock) eq_refl)
    as (_ & _ & Hlen & _ & Hsorted).
  split; [exact Hlen | exact (Hsorted sample_logs_oldest_first)].
Defined.

(* ================================================================= *)
(** ** Telemetry subscription *)

(** C3. A telemetry notification for a path without data completes
    normally, sets the connected flag, and replaces the telemetry slot by
    the fixed reading (28.5, 65, 8500, no flame, no leak) stamped with the
    current time; the slot is set once per such notification. *)
Theorem telemetry_fallback_reading (snapshot : DataSnapshot) (s : Sys) :
  exists_ snapshot = false ->
  let s' := exec (onData snapshot) s in
  let reading := deviceData (view s') in
  outcome (onData snapshot) s = Normal tt /\
  isConnected (view s') = true /\
  field "temperature" reading = Some (JNum 28.5) /\
  field "humidity" reading = Some (JNum 65) /\
  field "lpgLevel" reading = Some (JNum 8500) /\
  field "flameStatus" reading = Some (JBool false) /\
  field "gasLeakStatus" reading = Some (JBool false) /\
  field "timestamp" reading = Some (JStr (iso_now (clock s))) /\
  setter_calls s' =
    setter_calls s ++ [SetDeviceData reading; SetIsConnected true].
Proof.
  intros H s' reading. subst reading s'.
  unfold exec, outcome, onData. rewrite H.
  unfold bind, Date_toISOString. slots.
  rewrite <- app_assoc.
  repeat split.
Qed.

(** C3 at a fresh page. *)
Lemma telemetry_fallback_reading_witness :
  exists_ empty_snapshot = false /\
  isConnected (view (exec (onData empty_snapshot) (boot sample_clock)))
    = true /\
  field "temperature"
    (deviceData (view (exec (onData empty_snapshot) (boot sample_clock))))
    = Some (JNum 28.5).
Proof.
  split; [reflexivity |].
  destruct (telemetry_fallback_reading empty_snapshot (boot sample_clock)
              eq_refl)
    as (_ & Hconn & Htemp & _).
  split; [exact Hconn | exact Htemp].
Defined.

(** C10. The reading substituted for an empty telemetry path carries the
    location lat 6.9271, lng 79.8612. *)
Theorem telemetry_fallback_location (snapshot : DataSnapshot) (s : Sys) :
  exists_ snapshot = false ->
  let reading := deviceData (view (exec (onData snapshot) s)) in
  field "location" reading =
    Some (JObj [ (str "lat", JNum 6.9271); (str "lng", JNum 79.8612) ]) /\
  exists location,
    field "location" reading = Some location /\
    field "lat" location = Some (JNum 6.9271) /\
    field "lng" location = Some (JNum 79.8612).
Proof.
  intros H reading. subst reading.
  unfold exec, onData. rewrite H.
  unfold bind, Date_toISOString. slots.
  split; [reflexivity |].
  eexists. repeat split.
Qed.

(** C10 at a fresh page. *)
Lemma telemetry_fallback_location_witness :
  exists_ empty_snapshot = false /\
  field "location"
    (deviceData (view (exec (onData empty_snapshot) (boot sample_clock)))) =
    Some (JObj [ (str "lat", JNum 6.9271); (str "lng", JNum 79.8612) ]).
Proof.
  split; [reflexivity |].
  exact (proj1 (telemetry_fallback_location empty_snapshot
                  (boot sample_clock) eq_refl)).
Defined.

(* ================================================================= *)
(** ** Config subscription *)

(** C8, as the page has it.  A config notification for a path without
    data changes nothing at all: no setter is called and the config slot
    keeps the value it had, so it is still [null] if no configuration had
    arrived before, and no default is made up. *)
Theorem config_empty_keeps_slot (snapshot : DataSnapshot) (s : Sys) :
  exists_ snapshot = false ->
  let s' := exec (onConfig snapshot) s in
  outcome (onConfig snapshot) s = Normal tt /\
  s' = s /\
  config (view s') = config (view s) /\
  (config (view s) = JNull -> config (view s') = JNull).
Proof.
  intros H s'. subst s'. unfold exec, outcome, onConfig. rewrite H.
  cbn. repeat split. intros Hnull. exact Hnull.
Qed.

(** C8 at a fresh page: the slot stays [null]. *)
Lemma config_empty_keeps_slot_witness :
  exists_ empty_snapshot = false /\
  config (view (exec (onConfig empty_snapshot) (boot sample_clock))) = JNull.
Proof.
  split; [reflexivity |].
  destruct (config_empty_keeps_slot empty_snapshot (boot sample_clock)
              eq_refl)
    as (_ & _ & _ & Hnull).
  exact (Hnull eq_refl).
Defined.

(** C8 as stated fails once a configuration has been shown: the path
    turning empty leaves that configuration in the slot, not [null]. *)
Lemma config_empty_after_config_counterexample :
  exists_ empty_snapshot = false /\
  config (view configured_sys) = val sample_config /\
  config (view (exec (value_event (config_path default_hno) empty_snapshot)
                     configured_sys)) <> JNull.
Proof.
  split; [reflexivity |]. split; [reflexivity |].
  vm_compute. discriminate.
Qed.

(* ================================================================= *)
(** ** Store paths and listeners *)

Lemma jsstring_eqb_refl (a : jsstring) : jsstring_eqb a a = true.
Proof.
  induction a as [| x a IH]; [reflexivity |].
  simpl. now rewrite N.eqb_refl.
Qed.

Lemma jsstring_eqb_eq (a b : jsstring) : jsstring_eqb a b = true <-> a = b.
Proof.
  split.
  - revert b. induction a as [| x a IH]; intros [| y b] H;
      try discriminate; [reflexivity |].
    simpl in H. apply andb_true_iff in H. destruct H as [Hx Hab].
    apply N.eqb_eq in Hx. subst y. f_equal. now apply IH.
  - intros <-. apply jsstring_eqb_refl.
Qed.

Lemma jsstring_eqb_app (p a b : jsstring) :
  jsstring_eqb (p ++ a) (p ++ b) = jsstring_eqb a b.
Proof.
  induction p as [| x p IH]; [reflexivity |].
  simpl. now rewrite N.eqb_refl.
Qed.

(** Whether a listener registered under [/devices/hno/b] listens at
    [/devices/hno/a] is decided by the two suffixes. *)
Lemma listens_at_device (hno a b : jsstring) (h : nat)
  (cb : ValueCallback) (cc : option CancelCallback) :
  listens_at (str "/devices/" ++ hno ++ a)
             (mkRegistration h (str "/devices/" ++ hno ++ b) cb cc)
  = jsstring_eqb b a.
Proof.
  unfold listens_at. cbn [reg_path].
  now rewrite !jsstring_eqb_app.
Qed.

(** One run of the effect: four listeners added, four calls recorded,
    nothing else touched. *)
Lemma effect_run (hno : jsstring) (s : Sys) :
  effect hno s =
  (Normal (mkCleanup (next_id (db s)) (S (next_id (db s)))
                     (S (S (next_id (db s)))) (S (S (S (next_id (db s)))))),
   mkSys (view s) (setter_calls s) (console_errors s)
         (mkDatabase
            (listeners (db s) ++ page_registrations (next_id (db s)) hno)
            (S (S (S (S (next_id (db s))))))
            (onValue_calls (db s) ++
               [current_path hno; alerts_path hno;
                logs_path hno; config_path hno])
            (unsubscribe_calls (db s)) (set_calls (db s))
            (write_denied (db s)))
         (clock s)).
Proof.
  unfold effect, bind, onValue, ret, ref, with_db, page_registrations.
  cbn [db listeners next_id onValue_calls unsubscribe_calls set_calls
       write_denied view setter_calls console_errors clock].
  now rewrite <- !app_assoc.
Qed.


Lemma filter_filter_and (A : Type) (f g : A -> bool) (l : list A) :
  filter g (filter f l) = filter (fun x => f x && g x) l.
Proof.
  induction l as [| a l IH]; [reflexivity |].
  cbn [filter]. destruct (f a); cbn [filter andb]; now rewrite IH.
Qed.

Lemma filter_all_false (A : Type) (f : A -> bool) (l : list A) :
  Forall (fun x => f x = false) l -> filter f l = [].
Proof.
  induction 1 as [| a l Ha _ IH]; [reflexivity |].
  cbn [filter]. now rewrite Ha.
Qed.

Lemma filter_shorter (A : Type) (f : A -> bool) (l : list A) :
  length (filter f l) <= length l.
Proof.
  induction l as [| a l IH]; [apply Nat.le_refl |].
  cbn [filter]. destruct (f a); cbn [length]; lia.
Qed.

Lemma filter_swap (A : Type) (f g : A -> bool) (l : list A) :
  filter g (filter f l) = filter f (filter g l).
Proof.
  induction l as [| a l IH]; [reflexivity |].
  cbn [filter].
  destruct (f a) eqn:Ef, (g a) eqn:Eg; cbn [filter];
    rewrite ?Ef, ?Eg, IH; reflexivity.
Qed.

(** Of the four listeners of one run of the effect, one listens at each
    of the four paths. *)
Lemma page_registrations_at (h : nat) (hno : jsstring) :
  filter (listens_at (current_path hno)) (page_registrations h hno) =
    [mkRegistration h (current_path hno) OnData (Some OnDataError)] /\
  filter (listens_at (alerts_path hno)) (page_registrations h hno) =
    [mkRegistration (S h) (alerts_path hno) OnAlerts None] /\
  filter (listens_at (logs_path hno)) (page_registrations h hno) =
    [mkRegistration (S (S h)) (logs_path hno) OnLogs None] /\
  filter (listens_at (config_path hno)) (page_registrations h hno) =
    [mkRegistration (S (S (S h))) (config_path hno) OnConfig None].
Proof.
  unfold page_registrations, current_path, alerts_path, logs_path,
    config_path.
  cbn [filter]. rewrite !listens_at_device. compare_suffixes.
  repeat split.
Qed.

(** A listener of the page at the telemetry path is the telemetry
    listener of that run of the effect. *)
Lemma telemetry_listener_kept (h : nat) (hno : jsstring)
  (keep : Registration -> bool) (s : Sys) :
  listeners (db s) = filter keep (page_registrations h hno) ->
  subscribed_at (current_path hno) s ->
  keep (mkRegistration h (current_path hno) OnData (Some OnDataError))
  = true.
Proof.
  intros Hl (r & Hr & Hpath). rewrite Hl in Hr.
  assert (Hat : In r (filter (listens_at (current_path hno))
                             (filter keep (page_registrations h hno)))).
  { apply filter_In. split; [exact Hr |].
    unfold listens_at. rewrite Hpath. apply jsstring_eqb_refl. }
  rewrite filter_swap in Hat.
  destruct (page_registrations_at h hno) as (E & _). rewrite E in Hat.
  apply filter_In in Hat. destruct Hat as [[<- | []] Hk]. exact Hk.
Qed.

(* ================================================================= *)
(** ** Transport errors *)

(** C4, as the page has it.  A transport error on the telemetry
    subscription clears the connected flag and leaves the telemetry,
    alerts, logs and config slots as they were; the error goes to the
    console and the callback completes normally.  This holds wherever the
    page listens and its telemetry subscription is live: after earlier
    errors on the other subscriptions, and after the page was mounted
    again, as well as on the first mount. *)
Theorem telemetry_error_keeps_data
  (hno : jsstring) (error : jsstring) (s : Sys) :
  page_listening hno s ->
  subscribed_at (current_path hno) s ->
  let s' := exec (error_event (current_path hno) error) s in
  outcome (error_event (current_path hno) error) s = Normal tt /\
  isConnected (view s') = false /\
  deviceData (view s') = deviceData (view s) /\
  alerts (view s') = alerts (view s) /\
  logs (view s') = logs (view s) /\
  config (view s') = config (view s) /\
  setter_calls s' = setter_calls s ++ [SetIsConnected false] /\
  console_errors s' = console_errors s ++ [(str "Firebase error:", error)].
Proof.
  intros (h & keep & Hl) Hsub s'. subst s'.
  assert (Hkeep := telemetry_listener_kept h hno keep s Hl Hsub).
  unfold exec, outcome, error_event.
  rewrite Hl, (filter_swap _ keep (listens_at (current_path hno))).
  destruct (page_registrations_at h hno) as (-> & _).
  cbn [filter]. rewrite Hkeep.
  cbn [run_all]. unfold bind, deliver_error. cbn [reg_cancel].
  cbn. repeat split.
Qed.

(** C4 at the connected page of house 23 after an error on its alerts
    subscription. *)
Lemma telemetry_error_keeps_data_witness :
  page_listening default_hno alerts_failed_sys /\
  subscribed_at (current_path default_hno) alerts_failed_sys /\
  length (listeners (db alerts_failed_sys)) = 3 /\
  isConnected (view alerts_failed_sys) = true /\
  isConnected
    (view (exec (error_event (current_path default_hno) sample_error)
                alerts_failed_sys)) = false /\
  deviceData
    (view (exec (error_event (current_path default_hno) sample_error)
                alerts_failed_sys)) = val sample_reading.
Proof.
  assert (Hl : page_listening default_hno alerts_failed_sys).
  { exists 0, (fun r => negb (listens_at (alerts_path default_hno) r)).
    reflexivity. }
  assert (Hsub : subscribed_at (current_path default_hno)
                               alerts_failed_sys).
  { exists (mkRegistration 0 (current_path default_hno) OnData
                           (Some OnDataError)).
    split; [left; reflexivity | reflexivity]. }
  split; [exact Hl |]. split; [exact Hsub |].
  split; [reflexivity |]. split; [reflexivity |].
  destruct (telemetry_error_keeps_data default_hno sample_error
              alerts_failed_sys Hl Hsub)
    as (_ & Hflag & Hdata & _).
  split; [exact Hflag |].
  rewrite Hdata. reflexivity.
Defined.

(** C4 as stated fails for the other read subscriptions: an error on the
    alerts subscription of a connected page leaves the flag set. *)
Lemma alerts_error_stays_connected_counterexample :
  page_mounted default_hno connected_sys /\
  isConnected (view connected_sys) = true /\
  isConnected
    (view (exec (error_event (alerts_path default_hno) sample_error)
                connected_sys)) <> false.
Proof.
  split; [reflexivity |]. split; [reflexivity |].
  vm_compute. discriminate.
Qed.

(** C9. Only the telemetry subscription registers an error callback:
    every run of the effect adds four listeners of which the telemetry one
    alone has a cancel callback, and so it is of the listeners the page
    has at any time.  A transport error on the alerts, logs or config
    subscription therefore runs no code of the page: the connected flag
    and every state slot stay as they were, no setter is called and
    nothing is logged.  This holds wherever the page listens: after
    earlier errors, the telemetry one included, and after the page was
    mounted again. *)
Theorem other_errors_unobserved
  (hno : jsstring) (path : jsstring) (error : jsstring) (s : Sys) :
  page_listening hno s ->
  In path [alerts_path hno; logs_path hno; config_path hno] ->
  let s' := exec (error_event path error) s in
  (forall s0, exists added,
     listeners (db (exec (effect hno) s0)) = listeners (db s0) ++ added /\
     map (fun r => (reg_path r, reg_cancel r)) added =
       [ (current_path hno, Some OnDataError); (alerts_path hno, None);
         (logs_path hno, None); (config_path hno, None) ]) /\
  (forall r, In r (listeners (db s)) ->
     reg_cancel r =
       if listens_at (current_path hno) r then Some OnDataError
       else None) /\
  outcome (error_event path error) s = Normal tt /\
  view s' = view s /\
  isConnected (view s') = isConnected (view s) /\
  setter_calls s' = setter_calls s /\
  console_errors s' = console_errors s.
Proof.
  intros (h & keep & Hl) Hpath s'. subst s'.
  split; [| split].
  - intros s0. exists (page_registrations (next_id (db s0)) hno).
    unfold exec. rewrite effect_run. split; reflexivity.
  - intros r Hr. rewrite Hl in Hr.
    apply filter_In in Hr. destruct Hr as [Hr _].
    unfold page_registrations in Hr.
    destruct Hr as [<- | [<- | [<- | [<- | []]]]];
      unfold current_path, alerts_path, logs_path, config_path;
      rewrite listens_at_device; reflexivity.
  - unfold exec, outcome, error_event.
    rewrite Hl.
    destruct (page_registrations_at h hno) as (_ & Ha & Hlg & Hc).
    destruct Hpath as [<- | [<- | [<- | []]]];
      match goal with
      | |- context [run_all _ (filter (listens_at ?p) _)] =>
          rewrite (filter_swap _ keep (listens_at p))
      end;
      rewrite ?Ha, ?Hlg, ?Hc; cbn [filter];
      match goal with
      | |- context [keep ?r] => destruct (keep r)
      end;
      cbn [run_all]; unfold bind, deliver_error, ret, with_db;
      cbn [reg_cancel fst snd view setter_calls console_errors];
      repeat split.
Qed.

(** C9 at the page of house 23 mounted a second time, after an error on
    its telemetry subscription: an error on the logs subscription changes
    nothing. *)
Lemma other_errors_unobserved_witness :
  page_listening default_hno remounted_sys /\
  In (logs_path default_hno)
     [alerts_path default_hno; logs_path default_hno;
      config_path default_hno] /\
  map reg_id (listeners (db remounted_sys)) = [5; 6; 7] /\
  view (exec (error_event (logs_path default_hno) sample_error)
             remounted_sys) = view remounted_sys.
Proof.
  assert (Hl : page_listening default_hno remounted_sys).
  { exists 4, (fun r => negb (listens_at (current_path default_hno) r)).
    reflexivity. }
  assert (Hin : In (logs_path default_hno)
                   [alerts_path default_hno; logs_path default_hno;
                    config_path default_hno])
    by (right; left; reflexivity).
  split; [exact Hl |]. split; [exact Hin |]. split; [reflexivity |].
  destruct (other_errors_unobserved default_hno (logs_path default_hno)
              sample_error remounted_sys Hl Hin)
    as (_ & _ & _ & Hview & _).
  exact Hview.
Defined.

(* ================================================================= *)
(** ** Saving the configuration *)

(** C6. [handleSaveConfig newConfig] issues one write, to the config
    path of the device and with [newConfig] itself as payload; it calls no
    setter and leaves every state slot, the config slot included, as it
    was.  The slot takes the new value when the config subscription
    delivers it. *)
Theorem save_config_single_write
  (hno : jsstring) (newConfig : json) (s : Sys) :
  let s' := exec (handleSaveConfig hno newConfig) s in
  set_calls (db s') = set_calls (db s) ++ [(config_path hno, newConfig)] /\
  view s' = view s /\
  config (view s') = config (view s) /\
  setter_calls s' = setter_calls s /\
  listeners (db s') = listeners (db s) /\
  (write_denied (db s) (config_path hno) = false ->
   outcome (handleSaveConfig hno newConfig) s = Normal tt) /\
  (is_null newConfig = false ->
   config (view (exec (onConfig (mkSnapshot newConfig)) s')) = newConfig).
Proof.
  intros s'. subst s'.
  unfold exec, outcome, handleSaveConfig, set, ref, with_db.
  destruct (write_denied (db s) (config_path hno)) eqn:Hd;
    cbn [fst snd db set_calls listeners view setter_calls];
    repeat split; try discriminate;
    intros Hnn; unfold onConfig, exists_; cbn [val]; rewrite Hnn;
    reflexivity.
Qed.

(* ================================================================= *)
(** ** The unread badge *)

(** C5, as the page has it.  The Notifications label is a function of
    the history alone: it shows a badge exactly when some record is
    unread, and the badge then carries the number of unread records; with
    none unread the label carries no count.  So after a history with
    [k + 1] unread records is replaced by one with [k], the badge shows
    [k], or is gone when [k] is zero. *)
Theorem unread_badge_counts_unread
  (NotificationRecord : Type) (read : NotificationRecord -> bool)
  (history : list NotificationRecord) :
  let unread := length (filter (fun n => negb (read n)) history) in
  notifications_label read history =
    TextNode (str "Notifications")
    :: (if Nat.eqb unread 0 then [] else [Badge unread]) /\
  (forall k, In (Badge k) (notifications_label read history) <->
             k = unread /\ 0 < unread) /\
  (forall history_after,
     unread = S (unread_count read history_after) ->
     forall k, In (Badge k) (notifications_label read history_after) <->
               k = unread - 1 /\ 1 < unread).
Proof.
  intros unread.
  assert (Hlabel : forall h,
             notifications_label read h =
             TextNode (str "Notifications")
             :: (if Nat.eqb (unread_count read h) 0 then []
                 else [Badge (unread_count read h)])).
  { intros h. unfold notifications_label.
    destruct (unread_count read h); reflexivity. }
  assert (Hbadge : forall h k,
             In (Badge k) (notifications_label read h) <->
             k = unread_count read h /\ 0 < unread_count read h).
  { intros h k. rewrite Hlabel.
    destruct (unread_count read h) as [| n]; cbn.
    - split; [intros [H | []]; discriminate | intros [_ H]; lia].
    - split.
      + intros [H | [H | []]]; [discriminate |].
        injection H as <-. split; [reflexivity | lia].
      + intros [-> _]. right. left. reflexivity. }
  split; [apply Hlabel |]. split; [apply Hbadge |].
  intros history_after Hafter k. rewrite Hbadge. lia.
Qed.

(** C5 as stated fails when no record is unread: the count is zero and
    the label shows no count at all. *)
Lemma no_unread_no_badge_counterexample :
  unread_count notice_read history_all_read = 0 /\
  notifications_label notice_read history_all_read =
    [TextNode (str "Notifications")] /\
  ~ In (Badge (unread_count notice_read history_all_read))
       (notifications_label notice_read history_all_read).
Proof.
  split; [reflexivity |]. split; [reflexivity |].
  intros [H | []]. discriminate.
Qed.

(* ================================================================= *)
(** ** Subscription lifecycle *)

(** Removing four listeners one after the other keeps what [kept] keeps. *)
Lemma filter_four (c : Cleanup) (l : list Registration) :
  filter (fun r => negb (Nat.eqb (reg_id r) (unsubscribeConfig c)))
    (filter (fun r => negb (Nat.eqb (reg_id r) (unsubscribeLogs c)))
       (filter (fun r => negb (Nat.eqb (reg_id r) (unsubscribeAlerts c)))
          (filter (fun r => negb (Nat.eqb (reg_id r) (unsubscribeData c)))
             l)))
  = filter (kept c) l.
Proof.
  induction l as [| r l IH]; [reflexivity |].
  unfold kept in *. cbn [filter].
  destruct (Nat.eqb (reg_id r) (unsubscribeData c)); cbn; [exact IH |].
  destruct (Nat.eqb (reg_id r) (unsubscribeAlerts c)); cbn; [exact IH |].
  destruct (Nat.eqb (reg_id r) (unsubscribeLogs c)); cbn; [exact IH |].
  destruct (Nat.eqb (reg_id r) (unsubscribeConfig c)); cbn; [exact IH |].
  now rewrite IH.
Qed.

(** One run of the cleanup: four unsubscribe calls, in order; only the
    four listeners go. *)
Lemma cleanup_run (c : Cleanup) (s : Sys) :
  cleanup c s =
  (Normal tt,
   mkSys (view s) (setter_calls s) (console_errors s)
         (mkDatabase (filter (kept c) (listeners (db s)))
                     (next_id (db s)) (onValue_calls (db s))
                     (unsubscribe_calls (db s) ++ handles c)
                     (set_calls (db s)) (write_denied (db s)))
         (clock s)).
Proof.
  unfold cleanup, bind, unsubscribe, with_db, handles.
  cbn [db listeners next_id onValue_calls unsubscribe_calls set_calls
       write_denied view setter_calls console_errors clock].
  rewrite <- !app_assoc. cbn [app].
  now rewrite filter_four.
Qed.

Lemma filter_idempotent (A : Type) (f : A -> bool) (l : list A) :
  filter f (filter f l) = filter f l.
Proof.
  induction l as [| a l IH]; [reflexivity |].
  cbn. destruct (f a) eqn:E; [| exact IH].
  cbn. now rewrite E, IH.
Qed.

(** No listener that survives a cleanup is one of its four. *)
Lemma kept_not_handle (c : Cleanup) (l : list Registration) :
  Forall (fun r => ~ In (reg_id r) (handles c)) (filter (kept c) l).
Proof.
  apply Forall_forall. intros r Hr.
  apply filter_In in Hr. destruct Hr as [_ Hk].
  unfold kept in Hk.
  repeat (apply andb_true_iff in Hk; destruct Hk as [Hk ?]).
  repeat match goal with
         | H : negb _ = true |- _ =>
             apply negb_true_iff, Nat.eqb_neq in H
         end.
  unfold handles. cbn. intuition congruence.
Qed.

(** Listeners older than [h] survive the cleanup of the four listeners
    numbered from [h]. *)
Lemma kept_older (h : nat) (l : list Registration) :
  Forall (fun r => reg_id r < h) l ->
  filter (kept (mkCleanup h (S h) (S (S h)) (S (S (S h))))) l = l.
Proof.
  induction 1 as [| r l Hr _ IH]; [reflexivity |].
  cbn [filter]. rewrite IH.
  unfold kept. cbn [unsubscribeData unsubscribeAlerts unsubscribeLogs
                    unsubscribeConfig].
  replace (Nat.eqb (reg_id r) h) with false
    by (symmetry; apply Nat.eqb_neq; lia).
  replace (Nat.eqb (reg_id r) (S h)) with false
    by (symmetry; apply Nat.eqb_neq; lia).
  replace (Nat.eqb (reg_id r) (S (S h))) with false
    by (symmetry; apply Nat.eqb_neq; lia).
  replace (Nat.eqb (reg_id r) (S (S (S h)))) with false
    by (symmetry; apply Nat.eqb_neq; lia).
  reflexivity.
Qed.

(** The four listeners numbered from [h] do not survive their cleanup. *)
Lemma kept_own (h : nat) (hno : jsstring) :
  filter (kept (mkCleanup h (S h) (S (S h)) (S (S (S h)))))
         (page_registrations h hno) = [].
Proof.
  unfold page_registrations, kept.
  cbn [filter reg_id unsubscribeData unsubscribeAlerts unsubscribeLogs
       unsubscribeConfig].
  rewrite !Nat.eqb_refl.
  cbn [negb andb].
  repeat (rewrite ?andb_false_r; cbn [andb]).
  reflexivity.
Qed.

(** C7.  Mounting the page subscribes four times.  Its teardown, at
    unmount or when the house number changes, calls the four unsubscribe
    functions of those subscriptions and no other; afterwards the client
    holds the listeners it held before the page was mounted, plus, on a
    change of house number, the four new ones.  Whenever the teardown
    runs none of its four listeners is left, and running it again removes
    nothing more. *)
Theorem subscriptions_torn_down_together
  (hno hno' : jsstring) (s : Sys) :
  identities_fresh (db s) ->
  exists m,
    outcome (mount hno) s = Normal m /\
    let s1 := exec (mount hno) s in
    let torn := handles (mounted_cleanup m) in
    onValue_calls (db s1) =
      onValue_calls (db s) ++
      [current_path hno; alerts_path hno; logs_path hno; config_path hno] /\
    listeners (db s1) =
      listeners (db s) ++ page_registrations (next_id (db s)) hno /\
    map reg_id (page_registrations (next_id (db s)) hno) = torn /\
    NoDup torn /\
    outcome (unmount m) s1 = Normal tt /\
    unsubscribe_calls (db (exec (unmount m) s1)) =
      unsubscribe_calls (db s1) ++ torn /\
    listeners (db (exec (unmount m) s1)) = listeners (db s) /\
    (hno' <> hno ->
     exists m',
       outcome (rerender m hno') s1 = Normal m' /\
       let s2 := exec (rerender m hno') s1 in
       unsubscribe_calls (db s2) = unsubscribe_calls (db s1) ++ torn /\
       onValue_calls (db s2) =
         onValue_calls (db s1) ++
         [current_path hno'; alerts_path hno';
          logs_path hno'; config_path hno'] /\
       listeners (db s2) =
         listeners (db s) ++ page_registrations (next_id (db s1)) hno') /\
    (forall t,
       Forall (fun r => ~ In (reg_id r) torn)
              (listeners (db (exec (unmount m) t))) /\
       listeners (db (exec (unmount m) (exec (unmount m) t))) =
         listeners (db (exec (unmount m) t)) /\
       view (exec (unmount m) t) = view t).
Proof.
  intros Hfresh.
  set (h := next_id (db s)).
  exists (mkMounted hno (mkCleanup h (S h) (S (S h)) (S (S (S h))))).
  unfold outcome, exec, mount, unmount, rerender, bind.
  rewrite effect_run. fold h.
  cbn [fst snd mounted_cleanup mounted_hno ret].
  rewrite !cleanup_run.
  cbn [fst snd db listeners onValue_calls unsubscribe_calls view next_id].
  assert (Hgone :
            filter (kept (mkCleanup h (S h) (S (S h)) (S (S (S h)))))
                   (listeners (db s) ++ page_registrations h hno)
            = listeners (db s)).
  { rewrite filter_app, kept_older by exact Hfresh.
    rewrite kept_own. apply app_nil_r. }
  repeat match goal with |- _ /\ _ => split end;
    try reflexivity; try exact Hgone.
  - unfold handles. cbn.
    repeat constructor; cbn; lia.
  - intros Hne.
    destruct (jsstring_eqb hno hno') eqn:E.
    { apply jsstring_eqb_eq in E. congruence. }
    rewrite cleanup_run. rewrite effect_run.
    cbn [fst snd db listeners onValue_calls unsubscribe_calls view next_id].
    eexists. split; [reflexivity |].
    rewrite Hgone. repeat split.
  - intros t. rewrite !cleanup_run.
    cbn [fst snd db listeners view].
    repeat split.
    + apply kept_not_handle.
    + apply filter_idempotent.
Qed.

(** C7 on a fresh client, for house 23 and then house 24. *)
Lemma subscriptions_torn_down_together_witness :
  identities_fresh (db (boot sample_clock)) /\
  exists m,
    outcome (mount default_hno) (boot sample_clock) = Normal m /\
    length (listeners (db mounted_sys)) = 4 /\
    listeners (db (exec (unmount m) mounted_sys)) = [].
Proof.
  assert (Hfresh : identities_fresh (db (boot sample_clock)))
    by apply Forall_nil.
  split; [exact Hfresh |].
  destruct (subscriptions_torn_down_together default_hno (str "24")
              (boot sample_clock) Hfresh)
    as (m & Hm & _ & _ & _ & _ & _ & _ & Hgone & _).
  exists m. split; [exact Hm |]. split; [reflexivity | exact Hgone].
Defined.

(* ================================================================= *)
(** ** Runs of the page on the sample inputs *)

Example two_unread_badge :
  notifications_label notice_read history_two_unread =
    [TextNode (str "Notifications"); Badge 2].
Proof. reflexivity. Qed.

Example mounted_page_listens :
  map reg_path (listeners (db mounted_sys)) =
    [ str "/devices/23/current"; str "/devices/23/alerts";
      str "/devices/23/logs/events"; str "/devices/23/config" ].
Proof. reflexivity. Qed.

Example reading_replaces_fallback :
  deviceData
    (view (exec (onData sample_reading)
                (exec (onData empty_snapshot) (boot sample_clock))))
  = val sample_reading.
Proof. reflexivity. Qed.

Example empty_alerts_placeholder :
  map (field "message")
      (alerts (view (exec (onAlerts empty_snapshot) (boot sample_clock))))
  = [Some (JStr mock_alert_message)].
Proof. reflexivity. Qed.

Example calibrate_command :
  set_calls (db (exec (handleCalibrate default_hno) mounted_sys)) =
    [ (str "/devices/23/commands/calibrate",
       JObj [ (str "command", JStr (str "START_CALIBRATION"));
              (str "timestamp", JNum 1714557600000) ]) ].
Proof. reflexivity. Qed.

Example save_config_refused :
  let s := with_db (fun d =>
             mkDatabase (listeners d) (next_id d) (onValue_calls d)
                        (unsubscribe_calls d) (set_calls d)
                        (fun _ => true)) mounted_sys in
  outcome (handleSaveConfig default_hno (val sample_config)) s
    = Throw write_rejected /\
  config (view (exec (handleSaveConfig default_hno (val sample_config)) s))
    = JNull.
Proof. split; reflexivity. Qed.

(* ================================================================= *)
(** ** What one callback does to the system *)

Ltac sys_fields :=
  cbn [fst snd view setter_calls console_errors db clock apply_set
       deviceData alerts logs config isConnected].

Lemma onData_run (snapshot : DataSnapshot) (s : Sys) :
  onData snapshot s =
  (Normal tt,
   mkSys (mkState (shown_reading snapshot (clock s)) (alerts (view s))
                  (logs (view s)) (config (view s)) true)
         (setter_calls s ++
            [SetDeviceData (shown_reading snapshot (clock s));
             SetIsConnected true])
         (console_errors s) (db s) (clock s)).
Proof.
  unfold onData, shown_reading, mock_reading.
  destruct (exists_ snapshot);
    unfold bind, Date_toISOString, setDeviceData, setIsConnected, set_state;
    sys_fields; now rewrite <- app_assoc.
Qed.

Lemma onDataError_run (error : jsstring) (s : Sys) :
  onDataError error s =
  (Normal tt,
   mkSys (mkState (deviceData (view s)) (alerts (view s)) (logs (view s))
                  (config (view s)) false)
         (setter_calls s ++ [SetIsConnected false])
         (console_errors s ++ [(str "Firebase error:", error)])
         (db s) (clock s)).
Proof. reflexivity. Qed.

Lemma onAlerts_run (snapshot : DataSnapshot) (s : Sys) :
  onAlerts snapshot s =
  (Normal tt,
   mkSys (mkState (deviceData (view s)) (shown_alerts snapshot (clock s))
                  (logs (view s)) (config (view s)) (isConnected (view s)))
         (setter_calls s ++ [SetAlerts (shown_alerts snapshot (clock s))])
         (console_errors s) (db s) (clock s)).
Proof.
  unfold shown_alerts. destruct (exists_ snapshot) eqn:E.
  - now rewrite (onAlerts_exists _ _ E).
  - unfold onAlerts. now rewrite E.
Qed.

Lemma onLogs_run (snapshot : DataSnapshot) (s : Sys) :
  onLogs snapshot s =
  (Normal tt,
   mkSys (mkState (deviceData (view s)) (alerts (view s))
                  (shown_logs snapshot (clock s))
                  (config (view s)) (isConnected (view s)))
         (setter_calls s ++ [SetLogs (shown_logs snapshot (clock s))])
         (console_errors s) (db s) (clock s)).
Proof.
  unfold shown_logs. destruct (exists_ snapshot) eqn:E.
  - now rewrite (onLogs_exists _ _ E).
  - unfold onLogs. now rewrite E.
Qed.

Lemma onConfig_run (snapshot : DataSnapshot) (s : Sys) :
  onConfig snapshot s =
  if exists_ snapshot
  then (Normal tt,
        mkSys (mkState (deviceData (view s)) (alerts (view s))
                       (logs (view s)) (val snapshot)
                       (isConnected (view s)))
              (setter_calls s ++ [SetConfig (val snapshot)])
              (console_errors s) (db s) (clock s))
  else (Normal tt, s).
Proof. unfold onConfig. now destruct (exists_ snapshot). Qed.

(** No callback completes abruptly or touches the client. *)
Lemma value_callback_normal (cb : ValueCallback) (snapshot : DataSnapshot)
  (s : Sys) :
  fst (run_value_callback cb snapshot s) = Normal tt /\
  db (snd (run_value_callback cb snapshot s)) = db s /\
  clock (snd (run_value_callback cb snapshot s)) = clock s.
Proof.
  destruct cb; cbn [run_value_callback];
    rewrite ?onData_run, ?onAlerts_run, ?onLogs_run, ?onConfig_run;
    try destruct (exists_ snapshot); repeat split.
Qed.

Lemma deliver_error_normal (error : jsstring) (r : Registration) (s : Sys) :
  fst (deliver_error error r s) = Normal tt /\
  db (snd (deliver_error error r s)) = db s /\
  clock (snd (deliver_error error r s)) = clock s.
Proof.
  unfold deliver_error. destruct (reg_cancel r) as [[] |]; repeat split.
Qed.

(** What every step of [run_all] keeps, the whole run keeps. *)
Lemma run_all_keeps (A : Type) (P : Sys -> Prop) (f : A -> Eff unit)
  (l : list A) :
  (forall a s, P s -> P (snd (f a s))) ->
  forall s, P s -> P (snd (run_all f l s)).
Proof.
  intros Hf. induction l as [| a l IH]; intros s Hs; [exact Hs |].
  cbn [run_all]. unfold bind.
  specialize (Hf a s Hs).
  destruct (f a s) as [[[] | e] s1]; cbn [snd] in *.
  - now apply IH.
  - exact Hf.
Qed.

Lemma run_all_normal (A : Type) (f : A -> Eff unit) (l : list A) :
  (forall a s, fst (f a s) = Normal tt) ->
  forall s, fst (run_all f l s) = Normal tt.
Proof.
  intros Hf. induction l as [| a l IH]; intros s; [reflexivity |].
  cbn [run_all]. unfold bind.
  specialize (Hf a s).
  destruct (f a s) as [[[] | e] s1]; cbn [fst] in *.
  - apply IH.
  - discriminate.
Qed.



Lemma state_eta (st : State) :
  mkState (deviceData st) (alerts st) (logs st) (config st)
          (isConnected st) = st.
Proof. now destruct st. Qed.

(* ================================================================= *)
(** ** Events on a mounted page *)










Lemma listens_at_other (path : jsstring) (r : Registration) :
  reg_path r <> path -> listens_at path r = false.
Proof.
  intros Hne. unfold listens_at.
  destruct (jsstring_eqb (reg_path r) path) eqn:E; [| reflexivity].
  apply jsstring_eqb_eq in E. contradiction.
Qed.



(* ================================================================= *)
(** ** What stays true along every trace *)

Lemma rerender_run (m : Mounted) (hno : jsstring) (s : Sys) :
  rerender m hno s =
  if jsstring_eqb (mounted_hno m) hno then (Normal m, s)
  else
    (Normal (mkMounted hno (cleanup_from (next_id (db s)))),
     mkSys (view s) (setter_calls s) (console_errors s)
           (mkDatabase
              (filter (kept (mounted_cleanup m)) (listeners (db s)) ++
               page_registrations (next_id (db s)) hno)
              (S (S (S (S (next_id (db s))))))
              (onValue_calls (db s) ++ page_paths hno)
              (unsubscribe_calls (db s) ++ handles (mounted_cleanup m))
              (set_calls (db s)) (write_denied (db s)))
           (clock s)).
Proof.
  unfold rerender. destruct (jsstring_eqb (mounted_hno m) hno);
    [reflexivity |].
  unfold bind. rewrite cleanup_run, effect_run. reflexivity.
Qed.

(** A property of the state slots that every callback keeps holds along
    every step. *)
Lemma step_view_keeps (P : State -> Prop) :
  (forall cb snapshot s,
     P (view s) -> P (view (snd (run_value_callback cb snapshot s)))) ->
  (forall cb error s,
     P (view s) -> P (view (snd (run_cancel_callback cb error s)))) ->
  forall ms e, P (view (snd ms)) -> P (view (snd (step ms e))).
Proof.
  intros Hvalue Hcancel [m s] e HP. cbn [snd] in HP.
  destruct e as [path snapshot | path error | newConfig | | hno | c];
    cbn [step snd].
  - unfold exec, value_event.
    apply (run_all_keeps _ (fun s' => P (view s'))); [| exact HP].
    intros r s0. apply Hvalue.
  - unfold exec, error_event.
    apply (run_all_keeps _ (fun s' => P (view s'))); [| exact HP].
    intros r s0 H0. unfold deliver_error.
    destruct (reg_cancel r) as [cb |]; [now apply Hcancel | exact H0].
  - unfold exec, handleSaveConfig, set.
    now destruct (write_denied (db s) (ref (config_path (mounted_hno m)))).
  - unfold exec, handleCalibrate, bind, Date_now, set.
    now destruct (write_denied (db s)
                    (ref (calibrate_path (mounted_hno m)))).
  - rewrite rerender_run.
    now destruct (jsstring_eqb (mounted_hno m) hno).
  - exact HP.
Qed.

Lemma run_view_keeps (P : State -> Prop) :
  (forall cb snapshot s,
     P (view s) -> P (view (snd (run_value_callback cb snapshot s)))) ->
  (forall cb error s,
     P (view s) -> P (view (snd (run_cancel_callback cb error s)))) ->
  forall trace ms, P (view (snd ms)) -> P (view (snd (run ms trace))).
Proof.
  intros Hvalue Hcancel.
  induction trace as [| e trace IH]; intros ms HP; [exact HP |].
  cbn [run fold_left]. apply IH.
  now apply step_view_keeps.
Qed.

Lemma shown_reading_not_null (snapshot : DataSnapshot) (c : Clock) :
  shown_reading snapshot c <> JNull.
Proof.
  unfold shown_reading, exists_.
  destruct (val snapshot); cbn; discriminate.
Qed.

Lemma shown_alerts_bound (snapshot : DataSnapshot) (c : Clock) :
  length (shown_alerts snapshot c) <= 10.
Proof.
  unfold shown_alerts. destruct (exists_ snapshot).
  - apply firstn_le_length.
  - cbn. lia.
Qed.

Lemma shown_logs_bound (snapshot : DataSnapshot) (c : Clock) :
  length (shown_logs snapshot c) <= 50.
Proof.
  unfold shown_logs. destruct (exists_ snapshot).
  - rewrite length_rev, length_skipn. lia.
  - cbn. lia.
Qed.

(** Reading the state slots after any one callback. *)
Ltac after_callback cb snapshot :=
  destruct cb; cbn [run_value_callback run_cancel_callback];
  rewrite ?onData_run, ?onAlerts_run, ?onLogs_run, ?onConfig_run,
    ?onDataError_run;
  try destruct (exists_ snapshot) eqn:?; sys_fields.

(** X6. Whatever happens to the page, in whatever order, the alerts slot
    never holds more than ten entries and the logs slot never more than
    fifty, provided they did not to begin with. *)
Theorem slots_stay_bounded (ms : Mounted * Sys) (trace : list Event) :
  length (alerts (view (snd ms))) <= 10 ->
  length (logs (view (snd ms))) <= 50 ->
  length (alerts (view (snd (run ms trace)))) <= 10 /\
  length (logs (view (snd (run ms trace)))) <= 50.
Proof.
  intros Ha Hl.
  apply (run_view_keeps
           (fun st => length (alerts st) <= 10 /\ length (logs st) <= 50));
    [| | now split].
  - intros cb snapshot s [H1 H2]. after_callback cb snapshot;
      split; try assumption;
      try apply shown_alerts_bound; apply shown_logs_bound.
  - intros cb error s H. after_callback cb error. exact H.
Qed.

(** X6 on the page of house 23 along the sample trace. *)
Lemma slots_stay_bounded_witness :
  length (alerts (view (snd (started default_hno sample_clock)))) <= 10 /\
  length (logs (view (snd (started default_hno sample_clock)))) <= 50 /\
  length (alerts (view (snd (run (started default_hno sample_clock)
                                 sample_trace)))) <= 10 /\
  length (logs (view (snd (run (started default_hno sample_clock)
                               sample_trace)))) <= 50.
Proof.
  assert (Ha : length (alerts (view (snd (started default_hno
                                                  sample_clock)))) <= 10)
    by (cbn; lia).
  assert (Hl : length (logs (view (snd (started default_hno
                                                sample_clock)))) <= 50)
    by (cbn; lia).
  split; [exact Ha |]. split; [exact Hl |].
  exact (slots_stay_bounded (started default_hno sample_clock)
           sample_trace Ha Hl).
Defined.

(** X7. A page that shows itself connected always has a reading to
    show: along every trace from the mount, the connected flag is set only
    while the telemetry slot is not [null]. *)
Theorem connected_has_reading
  (hno : jsstring) (c : Clock) (trace : list Event) :
  isConnected (view (snd (run (started hno c) trace))) = true ->
  deviceData (view (snd (run (started hno c) trace))) <> JNull.
Proof.
  apply (run_view_keeps
           (fun st => isConnected st = true -> deviceData st <> JNull)).
  - intros cb snapshot s H. after_callback cb snapshot;
      try exact H; intros _; apply shown_reading_not_null.
  - intros cb error s H. after_callback cb error. discriminate.
  - cbn. discriminate.
Qed.

(** X7 on the page of house 23 along the sample trace. *)
Lemma connected_has_reading_witness :
  isConnected (view (snd (run (started default_hno sample_clock)
                              sample_trace))) = true /\
  deviceData (view (snd (run (started default_hno sample_clock)
                             sample_trace))) <> JNull.
Proof.
  assert (Hc : isConnected (view (snd (run (started default_hno
                                              sample_clock)
                                           sample_trace))) = true)
    by reflexivity.
  split; [exact Hc |].
  exact (connected_has_reading default_hno sample_clock sample_trace Hc).
Defined.

(** X8. The page never clears what it shows: once the telemetry slot
    holds a reading it holds one ever after, and once the config slot
    holds a configuration it holds one ever after, whatever the store
    delivers, errors and empty paths included. *)
Theorem shown_data_never_cleared (ms : Mounted * Sys) (trace : list Event) :
  (deviceData (view (snd ms)) <> JNull ->
   deviceData (view (snd (run ms trace))) <> JNull) /\
  (config (view (snd ms)) <> JNull ->
   config (view (snd (run ms trace))) <> JNull).
Proof.
  split; intros H.
  - apply (run_view_keeps (fun st => deviceData st <> JNull));
      [| | exact H].
    + intros cb snapshot s H0. after_callback cb snapshot;
        try exact H0; apply shown_reading_not_null.
    + intros cb error s H0. after_callback cb error. exact H0.
  - apply (run_view_keeps (fun st => config st <> JNull));
      [| | exact H].
    + intros cb snapshot s H0. after_callback cb snapshot;
        try exact H0.
      match goal with
      | E : exists_ snapshot = true |- _ =>
          apply exists_not_null in E; intros Hn; rewrite Hn in E;
          discriminate
      end.
    + intros cb error s H0. after_callback cb error. exact H0.
Qed.

(* ================================================================= *)
(** ** Listeners along every trace *)

(** The cleanup of an effect run removes whatever is left of the
    listeners of that run. *)
Lemma cleanup_removes_own (h : nat) (hno : jsstring)
  (keep : Registration -> bool) :
  filter (kept (cleanup_from h)) (filter keep (page_registrations h hno))
  = [].
Proof.
  rewrite filter_filter_and. apply filter_all_false.
  unfold page_registrations, cleanup_from, kept.
  repeat constructor;
    cbn [reg_id unsubscribeData unsubscribeAlerts unsubscribeLogs
         unsubscribeConfig];
    rewrite !Nat.eqb_refl; cbn [negb];
    repeat (rewrite ?andb_false_r; cbn [andb]); reflexivity.
Qed.

Lemma value_event_db (path : jsstring) (snapshot : DataSnapshot) (s : Sys) :
  db (exec (value_event path snapshot) s) = db s.
Proof.
  unfold exec, value_event.
  apply (run_all_keeps _ (fun s' => db s' = db s)); [| reflexivity].
  intros r s0 H0. rewrite <- H0. apply value_callback_normal.
Qed.

Lemma error_event_db (path error : jsstring) (s : Sys) :
  db (exec (error_event path error) s) =
  mkDatabase (filter (fun r => negb (listens_at path r)) (listeners (db s)))
             (next_id (db s)) (onValue_calls (db s))
             (unsubscribe_calls (db s)) (set_calls (db s))
             (write_denied (db s)).
Proof.
  unfold exec, error_event.
  match goal with
  | |- db (snd (run_all _ _ ?s0)) = ?d =>
      apply (run_all_keeps _ (fun s' => db s' = d)); [| reflexivity]
  end.
  intros r s0 H0. rewrite <- H0. apply deliver_error_normal.
Qed.

Lemma started_lifecycle (hno : jsstring) (c : Clock) :
  lifecycle (fst (started hno c)) (db (snd (started hno c))).
Proof.
  exists 0, (fun _ => true). repeat split.
Qed.

Lemma step_lifecycle (ms : Mounted * Sys) (e : Event) :
  lifecycle (fst ms) (db (snd ms)) ->
  lifecycle (fst (step ms e)) (db (snd (step ms e))).
Proof.
  destruct ms as [m s]. cbn [fst snd].
  intros (h & keep & Hc & Hl & Hn).
  destruct e as [path snapshot | path error | newConfig | | hno | c];
    cbn [step fst snd].
  - rewrite value_event_db. now exists h, keep.
  - rewrite error_event_db.
    exists h, (fun r => keep r && negb (listens_at path r)).
    cbn [listeners onValue_calls unsubscribe_calls].
    rewrite Hl, filter_filter_and. now repeat split.
  - exists h, keep.
    unfold exec, handleSaveConfig, set, with_db.
    now destruct (write_denied (db s) (ref (config_path (mounted_hno m)))).
  - exists h, keep.
    unfold exec, handleCalibrate, bind, Date_now, set, with_db.
    now destruct (write_denied (db s)
                    (ref (calibrate_path (mounted_hno m)))).
  - rewrite rerender_run.
    destruct (jsstring_eqb (mounted_hno m) hno); cbn [fst snd].
    + now exists h, keep.
    + exists (next_id (db s)), (fun _ => true).
      cbn [mounted_cleanup mounted_hno db listeners onValue_calls
           unsubscribe_calls].
      rewrite Hc, Hl, cleanup_removes_own.
      split; [reflexivity |]. split.
      * cbn [app]. clear.
        induction (page_registrations (next_id (db s)) hno) as [| r l IH];
          [reflexivity |]. cbn [filter]. now rewrite <- IH.
      * rewrite !length_app. cbn [page_paths handles length]. lia.
  - now exists h, keep.
Qed.

Lemma run_lifecycle (trace : list Event) (ms : Mounted * Sys) :
  lifecycle (fst ms) (db (snd ms)) ->
  lifecycle (fst (run ms trace)) (db (snd (run ms trace))).
Proof.
  revert ms. induction trace as [| e trace IH]; intros ms H; [exact H |].
  cbn [run fold_left]. apply IH. now apply step_lifecycle.
Qed.

(** Every state along a trace from the mount is one in which the page
    listens for the house number it was last rendered with. *)
Lemma reachable_page_listening
  (hno : jsstring) (c : Clock) (trace : list Event) :
  page_listening (mounted_hno (fst (run (started hno c) trace)))
                 (snd (run (started hno c) trace)).
Proof.
  destruct (run_lifecycle trace (started hno c) (started_lifecycle hno c))
    as (h & keep & _ & Hl & _).
  now exists h, keep.
Qed.

(** X9. Along every trace from the mount the client holds at most four
    listeners of the page, each at one of the four paths of the house
    number the page was last rendered with, and the page has subscribed
    exactly four times more often than it has unsubscribed. *)
Theorem four_live_subscriptions
  (hno : jsstring) (c : Clock) (trace : list Event) :
  let m := fst (run (started hno c) trace) in
  let d := db (snd (run (started hno c) trace)) in
  length (listeners d) <= 4 /\
  Forall (fun r => In (reg_path r) (page_paths (mounted_hno m)))
         (listeners d) /\
  length (onValue_calls d) = length (unsubscribe_calls d) + 4.
Proof.
  intros m d.
  destruct (run_lifecycle trace (started hno c) (started_lifecycle hno c))
    as (h & keep & Hc & Hl & Hn).
  fold m in Hc, Hl. fold d in Hl, Hn.
  split; [| split; [| exact Hn]].
  - rewrite Hl.
    apply (Nat.le_trans _ _ _ (filter_shorter _ _ _)). cbn. lia.
  - rewrite Hl. apply Forall_forall. intros r Hr.
    apply filter_In in Hr. destruct Hr as [Hr _].
    unfold page_registrations in Hr. unfold page_paths.
    destruct Hr as [<- | [<- | [<- | [<- | []]]]]; cbn; tauto.
Qed.

(** X10. Unmounting the page after any trace leaves the client without a
    single listener of the page, so nothing the store delivers afterwards
    reaches it: a value event at any path changes nothing. *)
Theorem unmounted_page_hears_nothing
  (hno : jsstring) (c : Clock) (trace : list Event)
  (path : jsstring) (snapshot : DataSnapshot) :
  let m := fst (run (started hno c) trace) in
  let s := snd (run (started hno c) trace) in
  let gone := exec (unmount m) s in
  outcome (unmount m) s = Normal tt /\
  listeners (db gone) = [] /\
  view gone = view s /\
  value_event path snapshot gone = (Normal tt, gone).
Proof.
  intros m s gone.
  destruct (run_lifecycle trace (started hno c) (started_lifecycle hno c))
    as (h & keep & Hc & Hl & _).
  fold m in Hc, Hl. fold s in Hl.
  assert (Hgone : listeners (db gone) = []).
  { subst gone. unfold exec, unmount. rewrite cleanup_run.
    cbn [snd db listeners]. rewrite Hc, Hl. apply cleanup_removes_own. }
  split; [| split; [| split]].
  - unfold outcome, unmount. now rewrite cleanup_run.
  - exact Hgone.
  - subst gone. unfold exec, unmount. now rewrite cleanup_run.
  - unfold value_event. now rewrite Hgone.
Qed.

(** X11. Only the user writes to the store: along every trace the number
    of writes issued grows by one for each save and each calibration and
    by nothing else, so no value, error or render makes the page write. *)
Theorem only_user_actions_write (ms : Mounted * Sys) (trace : list Event) :
  length (set_calls (db (snd (run ms trace)))) =
  length (set_calls (db (snd ms))) + write_actions trace.
Proof.
  revert ms. induction trace as [| e trace IH]; intros [m s].
  - cbn. lia.
  - cbn [run fold_left]. fold (run (step (m, s) e) trace). rewrite IH.
    unfold write_actions. cbn [filter snd].
    destruct e as [path snapshot | path error | newConfig | | hno | c];
      cbn [step snd length].
    + rewrite value_event_db. lia.
    + rewrite error_event_db. cbn [set_calls]. lia.
    + unfold exec, handleSaveConfig, set, with_db.
      destruct (write_denied (db s) (ref (config_path (mounted_hno m))));
        cbn [snd db set_calls]; rewrite length_app; cbn [length]; lia.
    + unfold exec, handleCalibrate, bind, Date_now, set, with_db.
      destruct (write_denied (db s)
                  (ref (calibrate_path (mounted_hno m))));
        cbn [snd db set_calls]; rewrite length_app; cbn [length]; lia.
    + rewrite rerender_run.
      destruct (jsstring_eqb (mounted_hno m) hno);
        cbn [snd db set_calls]; lia.
    + cbn [db]. lia.
Qed.

(* ================================================================= *)
(** ** Store paths of different houses *)

(** Two lists that end differently are different, whatever comes
    before the endings. *)
Lemma endings_differ (k : nat) (x y a b : jsstring) :
  k <= length a -> k <= length b ->
  firstn k (rev a) <> firstn k (rev b) ->
  x ++ a <> y ++ b.
Proof.
  intros Ha Hb Hne E. apply Hne.
  apply (f_equal (fun l => firstn k (rev l))) in E.
  rewrite !rev_app_distr, !firstn_app, !length_rev in E.
  replace (k - length a) with 0 in E by lia.
  replace (k - length b) with 0 in E by lia.
  cbn [firstn] in E. now rewrite !app_nil_r in E.
Qed.

Ltac paths_clash :=
  match goal with
  | E : ?x ++ ?a = ?y ++ ?b |- _ =>
      exfalso; revert E; apply (endings_differ 7);
      [vm_compute; lia | vm_compute; lia | vm_compute; discriminate]
  end.

(** The five paths of the page, over all house numbers, are told apart
    by house number and by kind. *)
Lemma device_paths_inj (hno hno' : jsstring) (i j : nat) (p : jsstring) :
  nth_error (page_paths hno ++ [calibrate_path hno]) i = Some p ->
  nth_error (page_paths hno' ++ [calibrate_path hno']) j = Some p ->
  hno = hno' /\ i = j.
Proof.
  unfold page_paths, current_path, alerts_path, logs_path, config_path,
    calibrate_path.
  intros Hi Hj.
  destruct i as [| [| [| [| [| i]]]]]; cbn [nth_error app] in Hi;
    try (destruct i; discriminate Hi);
    injection Hi as <-;
    (destruct j as [| [| [| [| [| j]]]]]; cbn [nth_error app] in Hj;
     try (destruct j; discriminate Hj);
     injection Hj as Hj);
    try apply app_inv_head in Hj;
    try (apply app_inv_tail in Hj; subst; split; reflexivity);
    paths_clash.
Qed.

(** X12. The paths of the page are namespaced by house number: the five
    paths of one house are pairwise different, and no path of one house is
    a path of another, whatever characters the house numbers contain. *)
Theorem paths_namespaced (hno hno' : jsstring) :
  NoDup (page_paths hno ++ [calibrate_path hno]) /\
  (hno <> hno' ->
   forall p, In p (page_paths hno ++ [calibrate_path hno]) ->
             ~ In p (page_paths hno' ++ [calibrate_path hno'])).
Proof.
  split.
  - apply NoDup_nth_error. intros i j Hi E.
    destruct (nth_error (page_paths hno ++ [calibrate_path hno]) i)
      as [p |] eqn:Ei.
    + symmetry in E.
      now destruct (device_paths_inj hno hno i j p Ei E).
    + apply nth_error_None in Ei. lia.
  - intros Hne p Hp Hp'.
    apply In_nth_error in Hp. destruct Hp as [i Hi].
    apply In_nth_error in Hp'. destruct Hp' as [j Hj].
    now destruct (device_paths_inj hno hno' i j p Hi Hj).
Qed.

Lemma page_paths_of_other_house (hno hno' p : jsstring) :
  hno <> hno' -> In p (page_paths hno) -> ~ In p (page_paths hno').
Proof.
  intros Hne Hp Hp'.
  assert (H1 : In p (page_paths hno ++ [calibrate_path hno]))
    by (apply in_or_app; now left).
  assert (H2 : In p (page_paths hno' ++ [calibrate_path hno']))
    by (apply in_or_app; now left).
  apply In_nth_error in H1. destruct H1 as [i Hi].
  apply In_nth_error in H2. destruct H2 as [j Hj].
  now destruct (device_paths_inj hno hno' i j p Hi Hj).
Qed.

(** X13. After any trace, the page is deaf to the paths of every house
    number but the one it was last rendered with: a value event there
    changes nothing at all, and an error there changes no state slot. *)
Theorem other_house_ignored
  (hno : jsstring) (c : Clock) (trace : list Event)
  (other path : jsstring) (snapshot : DataSnapshot) (error : jsstring) :
  let m := fst (run (started hno c) trace) in
  let s := snd (run (started hno c) trace) in
  other <> mounted_hno m ->
  In path (page_paths other) ->
  value_event path snapshot s = (Normal tt, s) /\
  view (exec (error_event path error) s) = view s /\
  console_errors (exec (error_event path error) s) = console_errors s.
Proof.
  intros m s Hother Hpath.
  destruct (run_lifecycle trace (started hno c) (started_lifecycle hno c))
    as (h & keep & _ & Hl & _).
  fold m in Hl. fold s in Hl.
  assert (Hnone : filter (listens_at path) (listeners (db s)) = []).
  { rewrite Hl, filter_filter_and. apply filter_all_false.
    apply Forall_forall. intros r Hr.
    rewrite (listens_at_other path r); [apply andb_false_r |].
    intros E. apply (page_paths_of_other_house other (mounted_hno m) path
                       Hother Hpath).
    rewrite <- E. unfold page_registrations in Hr. unfold page_paths.
    destruct Hr as [<- | [<- | [<- | [<- | []]]]]; cbn; tauto. }
  unfold exec, value_event, error_event.
  rewrite Hnone. cbn [run_all]. unfold ret, with_db.
  repeat split.
Qed.

(** X13 on the page of house 23 rendered again for house 24: a reading
    for house 23 is no longer shown. *)
Lemma other_house_ignored_witness :
  default_hno <>
    mounted_hno (fst (run (started default_hno sample_clock) sample_trace))
  /\
  In (current_path default_hno) (page_paths default_hno) /\
  value_event (current_path default_hno) sample_reading
    (snd (run (started default_hno sample_clock) sample_trace))
  = (Normal tt, snd (run (started default_hno sample_clock) sample_trace)).
Proof.
  assert (Hother : default_hno <>
            mounted_hno (fst (run (started default_hno sample_clock)
                                  sample_trace)))
    by (vm_compute; discriminate).
  assert (Hpath : In (current_path default_hno) (page_paths default_hno))
    by (left; reflexivity).
  split; [exact Hother |]. split; [exact Hpath |].
  exact (proj1 (other_house_ignored default_hno sample_clock sample_trace
                  default_hno (current_path default_hno) sample_reading
                  sample_error Hother Hpath)).
Defined.

(* ================================================================= *)
(** ** The fields of a decoded alert *)

Lemma jsstring_eqb_sym (a b : jsstring) :
  jsstring_eqb a b = jsstring_eqb b a.
Proof.
  destruct (jsstring_eqb a b) eqn:E1, (jsstring_eqb b a) eqn:E2;
    try reflexivity.
  - apply jsstring_eqb_eq in E1. subst.
    now rewrite jsstring_eqb_refl in E2.
  - apply jsstring_eqb_eq in E2. subst.
    now rewrite jsstring_eqb_refl in E1.
Qed.

Lemma lookup_absent (k : jsstring) (props : list (jsstring * json)) :
  has_key k props = false -> lookup k props = None.
Proof.
  induction props as [| [k1 v1] props IH]; [reflexivity |].
  cbn [has_key lookup]. intros H. apply orb_false_iff in H.
  destruct H as [-> H]. now apply IH.
Qed.

Lemma lookup_present (k : jsstring) (props : list (jsstring * json)) :
  has_key k props = true -> exists v, lookup k props = Some v /\
                                      In v (map snd props).
Proof.
  induction props as [| [k1 v1] props IH]; [discriminate |].
  cbn [has_key lookup map snd]. intros H.
  destruct (jsstring_eqb k k1).
  - exists v1. split; [reflexivity | now left].
  - destruct (IH H) as (v & Hv & Hin). exists v. split; [exact Hv |].
    now right.
Qed.

Lemma has_key_in (k : jsstring) (props : list (jsstring * json)) :
  In k (map fst props) -> has_key k props = true.
Proof.
  induction props as [| [k1 v1] props IH]; [intros [] |].
  cbn [map fst has_key]. intros [<- | H].
  - now rewrite jsstring_eqb_refl.
  - rewrite (IH H). apply orb_true_r.
Qed.

Lemma has_key_rev (k : jsstring) (props : list (jsstring * json)) :
  has_key k (rev props) = has_key k props.
Proof.
  assert (Happ : forall l1 l2,
             has_key k (l1 ++ l2) = has_key k l1 || has_key k l2).
  { induction l1 as [| [k1 v1] l1 IH]; intros l2; [reflexivity |].
    cbn [app has_key]. now rewrite IH, orb_assoc. }
  induction props as [| [k1 v1] props IH]; [reflexivity |].
  cbn [rev]. rewrite Happ, IH. cbn [has_key].
  rewrite orb_false_r. apply orb_comm.
Qed.

Lemma lookup_app (k : jsstring) (l1 l2 : list (jsstring * json)) :
  lookup k (l1 ++ l2) =
  match lookup k l1 with Some v => Some v | None => lookup k l2 end.
Proof.
  induction l1 as [| [k1 v1] l1 IH]; [reflexivity |].
  cbn [app lookup]. now destruct (jsstring_eqb k k1).
Qed.

Lemma lookup_replace_value (k k' : jsstring) (v : json)
  (props : list (jsstring * json)) :
  has_key k' props = true ->
  lookup k (replace_value k' v props) =
  if jsstring_eqb k k' then Some v else lookup k props.
Proof.
  induction props as [| [k1 v1] props IH]; [discriminate |].
  cbn [has_key replace_value]. intros H.
  destruct (jsstring_eqb k' k1) eqn:E1.
  - apply jsstring_eqb_eq in E1. subst k1. cbn [lookup].
    now destruct (jsstring_eqb k k').
  - cbn [orb] in H. cbn [lookup]. rewrite (IH H).
    destruct (jsstring_eqb k k1) eqn:E2; [| reflexivity].
    apply jsstring_eqb_eq in E2. subst k1.
    now rewrite jsstring_eqb_sym, E1.
Qed.

Lemma lookup_insert_index (k k' : jsstring) (n : N) (v : json)
  (props : list (jsstring * json)) :
  has_key k' props = false ->
  lookup k (insert_index n k' v props) =
  if jsstring_eqb k k' then Some v else lookup k props.
Proof.
  induction props as [| [k1 v1] props IH]; [reflexivity |].
  cbn [has_key insert_index]. intros H. apply orb_false_iff in H.
  destruct H as [E1 H].
  destruct (array_index k1) as [m |]; [destruct (m <? n)%N |];
    try reflexivity.
  cbn [lookup]. rewrite (IH H).
  destruct (jsstring_eqb k k1) eqn:E2; [| reflexivity].
  apply jsstring_eqb_eq in E2. subst k1.
  now rewrite jsstring_eqb_sym, E1.
Qed.

(** Reading a property back after it was defined. *)
Lemma lookup_define_property (k : jsstring) (props : list (jsstring * json))
  (kv : jsstring * json) :
  lookup k (define_property props kv) =
  if jsstring_eqb k (fst kv) then Some (snd kv) else lookup k props.
Proof.
  destruct kv as [k' v]. cbn [fst snd]. unfold define_property.
  destruct (has_key k' props) eqn:Hk.
  - now apply lookup_replace_value.
  - destruct (array_index k') as [n |].
    + now apply lookup_insert_index.
    + rewrite lookup_app. cbn [lookup].
      destruct (jsstring_eqb k k') eqn:E.
      * apply jsstring_eqb_eq in E. subst k'.
        now rewrite (lookup_absent _ _ Hk).
      * now destruct (lookup k props).
Qed.

(** Reading a property of [{ ...props, ...source }]: the source wins,
    its last definition first. *)
Lemma lookup_fold_define (k : jsstring) (entries props : list (jsstring * json)) :
  lookup k (fold_left define_property entries props) =
  match lookup k (rev entries) with
  | Some v => Some v
  | None => lookup k props
  end.
Proof.
  revert props. induction entries as [| e entries IH]; intros props;
    [reflexivity |].
  cbn [fold_left rev]. rewrite IH, lookup_app, lookup_define_property.
  destruct (lookup k (rev entries)); [reflexivity |].
  destruct e as [k' v]. cbn [lookup fst snd].
  now destruct (jsstring_eqb k k').
Qed.

Lemma lookup_rev_unique (k : jsstring) (entries : list (jsstring * json)) :
  NoDup (map fst entries) -> lookup k (rev entries) = lookup k entries.
Proof.
  induction entries as [| [k1 v1] entries IH]; [reflexivity |].
  cbn [map fst]. intros Hnd. apply NoDup_cons_iff in Hnd.
  destruct Hnd as [Hnotin Hnd].
  cbn [rev]. rewrite lookup_app, (IH Hnd). cbn [lookup].
  destruct (jsstring_eqb k k1) eqn:E.
  - apply jsstring_eqb_eq in E. subst k1.
    rewrite lookup_absent; [reflexivity |].
    destruct (has_key k entries) eqn:Hk; [| reflexivity].
    exfalso. apply Hnotin.
    clear -Hk. induction entries as [| [k2 v2] entries IH];
      [discriminate |].
    cbn [has_key] in Hk. cbn [map fst].
    destruct (jsstring_eqb k k2) eqn:E.
    + apply jsstring_eqb_eq in E. now left.
    + right. now apply IH.
  - now destruct (lookup k entries).
Qed.

(** X14. A decoded alert carries every field of the stored alert, and
    its [id] is the store key unless the stored alert has an [id] field of
    its own, which then takes the key's place. *)
Theorem alert_entry_fields
  (alertsData : json) (key : jsstring) (stored : json) (k : jsstring) :
  get_own alertsData key = Some stored ->
  NoDup (map fst (own_entries stored)) ->
  get_own (alert_entry alertsData key) k =
    if jsstring_eqb k (str "id")
    then match get_own stored (str "id") with
         | Some own_id => Some own_id
         | None => Some (JStr key)
         end
    else get_own stored k.
Proof.
  intros Hstored Hnd.
  unfold alert_entry, get_own at 1. cbn [own_entries].
  rewrite Hstored. unfold spread.
  rewrite lookup_fold_define, (lookup_rev_unique _ _ Hnd).
  unfold get_own. cbn [lookup].
  destruct (jsstring_eqb k (str "id")) eqn:E.
  - apply jsstring_eqb_eq in E. subst k. reflexivity.
  - now destruct (lookup k (own_entries stored)).
Qed.

(** X14 at an alert stored with its own [id]: the page shows that one,
    not the key. *)
Lemma alert_entry_fields_witness :
  get_own (val sample_alert_with_id) (str "-Nx1") =
    Some (JObj [ (str "type", JStr (str "gas-leak"));
                 (str "id", JStr (str "custom")) ]) /\
  get_own (alert_entry (val sample_alert_with_id) (str "-Nx1")) (str "id")
  = Some (JStr (str "custom")).
Proof.
  assert (Hs : get_own (val sample_alert_with_id) (str "-Nx1") =
               Some (JObj [ (str "type", JStr (str "gas-leak"));
                            (str "id", JStr (str "custom")) ]))
    by reflexivity.
  assert (Hnd : NoDup (map fst (own_entries
                  (JObj [ (str "type", JStr (str "gas-leak"));
                          (str "id", JStr (str "custom")) ])))).
  { cbn [map fst own_entries].
    apply NoDup_cons; [| apply NoDup_cons; [intros [] | apply NoDup_nil]].
    intros [H | []]. vm_compute in H. discriminate H. }
  split; [exact Hs |].
  exact (alert_entry_fields (val sample_alert_with_id) (str "-Nx1") _
           (str "id") Hs Hnd).
Defined.

Lemma in_firstn (A : Type) (n : nat) (l : list A) (x : A) :
  In x (firstn n l) -> In x l.
Proof.
  intros H. rewrite <- (firstn_skipn n l). apply in_or_app. now left.
Qed.

(** The [id] of a decoded alert whose stored form has none is its key. *)
Lemma alert_entry_default_id (alertsData : json) (key : jsstring) :
  Forall (fun stored => has_key (str "id") (own_entries stored) = false)
         (map snd (own_entries alertsData)) ->
  In key (map fst (own_entries alertsData)) ->
  field "id" (alert_entry alertsData key) = Some (JStr key).
Proof.
  intros Hno Hin.
  destruct (lookup_present key _ (has_key_in _ _ Hin))
    as (stored & Hstored & Hs).
  rewrite Forall_forall in Hno. specialize (Hno stored Hs).
  unfold field, alert_entry, get_own at 1. cbn [own_entries].
  unfold get_own. rewrite Hstored. unfold spread.
  rewrite lookup_fold_define, lookup_absent
    by now rewrite has_key_rev.
  reflexivity.
Qed.

(** X15. When no stored alert has an [id] field of its own, the alerts
    shown are those of the first ten keys of the payload, in the order of
    the keys, each with its key as [id]. *)
Theorem alerts_carry_store_keys (snapshot : DataSnapshot) (s : Sys) :
  exists_ snapshot = true ->
  Forall (fun stored => has_key (str "id") (own_entries stored) = false)
         (map snd (own_entries (val snapshot))) ->
  map (field "id") (alerts (view (exec (onAlerts snapshot) s))) =
  map (fun key => Some (JStr key))
      (firstn 10 (map fst (own_entries (val snapshot)))).
Proof.
  intros H Hno. unfold exec. rewrite (onAlerts_exists _ _ H). slots.
  unfold decoded_alerts. rewrite firstn_map, map_map.
  apply map_ext_in. intros key Hin.
  apply alert_entry_default_id; [exact Hno |].
  exact (in_firstn _ _ _ _ Hin).
Qed.

Lemma sample_alerts_without_id :
  Forall (fun stored => has_key (str "id") (own_entries stored) = false)
         (map snd (own_entries (val sample_alerts))).
Proof. vm_compute. repeat constructor. Qed.

(** X15 at twelve alerts: the ids shown are the first ten keys. *)
Lemma alerts_carry_store_keys_witness :
  exists_ sample_alerts = true /\
  Forall (fun stored => has_key (str "id") (own_entries stored) = false)
         (map snd (own_entries (val sample_alerts))) /\
  hd_error
    (map (field "id")
         (alerts (view (exec (onAlerts sample_alerts) (boot sample_clock)))))
  = Some (Some (JStr (str "alert100"))).
Proof.
  split; [reflexivity |]. split; [exact sample_alerts_without_id |].
  rewrite (alerts_carry_store_keys sample_alerts (boot sample_clock)
             eq_refl sample_alerts_without_id).
  reflexivity.
Defined.

(* ================================================================= *)
(** ** The newest log entry *)

(** X16. When the logs path holds data the first entry shown is the last
    entry of the payload, and the entries shown, read backwards, are the
    payload without its oldest [n - 50] entries: nothing is made up,
    repeated or reordered. *)
Theorem newest_log_shown_first (snapshot : DataSnapshot) (s : Sys) :
  exists_ snapshot = true ->
  let entries := decoded_logs (val snapshot) in
  let shown := logs (view (exec (onLogs snapshot) s)) in
  hd_error shown = hd_error (rev entries) /\
  exists older,
    entries = older ++ rev shown /\
    length older = length entries - 50.
Proof.
  intros H entries shown. subst shown. unfold exec.
  rewrite (onLogs_exists _ _ H). slots. fold entries.
  set (k := length entries - 50).
  split.
  - rewrite <- (firstn_skipn k entries) at 2. rewrite rev_app_distr.
    destruct (skipn k entries) as [| e rest] eqn:E.
    + apply skipn_all_iff in E.
      assert (Hnil : entries = [])
        by (apply length_zero_iff_nil; subst k; lia).
      rewrite Hnil. now rewrite firstn_nil.
    + destruct (rev (e :: rest)) as [| x l] eqn:Er; [| reflexivity].
      apply (f_equal (@length json)) in Er.
      rewrite length_rev in Er. discriminate.
  - exists (firstn k entries). split.
    + rewrite rev_involutive. symmetry. apply firstn_skipn.
    + rewrite length_firstn. subst k. lia.
Qed.

(** X16 at fifty-three entries: the entry of key [event152] comes first
    and three entries are left out. *)
Lemma newest_log_shown_first_witness :
  exists_ sample_logs = true /\
  hd_error (logs (view (exec (onLogs sample_logs) (boot sample_clock)))) =
    Some (JObj [ (str "timestamp", JStr (str "2024-05-01T09:00:152"));
                 (str "eventType", JStr (str "Normal")) ]) /\
  exists older,
    decoded_logs (val sample_logs) =
      older ++ rev (logs (view (exec (onLogs sample_logs)
                                     (boot sample_clock)))) /\
    length older = 3.
Proof.
  split; [reflexivity |].
  destruct (newest_log_shown_first sample_logs (boot sample_clock) eq_refl)
    as (Hhd & older & Hsplit & Hlen).
  split; [rewrite Hhd; reflexivity |].
  exists older. split; [exact Hsplit | exact Hlen].
Defined.

(* ================================================================= *)
(** ** The unread badge and the records read *)

(** X17. The Notifications label carries no badge exactly when every
    record of the history is read; and the count on the badge never
    exceeds the number of records. *)
Theorem badge_absent_iff_all_read
  (NotificationRecord : Type) (read : NotificationRecord -> bool)
  (history : list NotificationRecord) :
  (notifications_label read history = [TextNode (str "Notifications")] <->
   forall n, In n history -> read n = true) /\
  unread_count read history <= length history.
Proof.
  split; [| apply filter_shorter].
  unfold notifications_label, unread_count. split.
  - intros Hlabel n Hin.
    destruct (filter (fun n0 => negb (read n0)) history) as [| u l] eqn:E;
      [| discriminate Hlabel].
    destruct (read n) eqn:Hr; [reflexivity |].
    assert (Hn : In n (filter (fun n0 => negb (read n0)) history))
      by (apply filter_In; split; [exact Hin | now rewrite Hr]).
    rewrite E in Hn. destruct Hn.
  - intros Hall. rewrite filter_all_false; [reflexivity |].
    apply Forall_forall. intros n Hin. now rewrite (Hall n Hin).
Qed.

(* ================================================================= *)
(** ** Calibration and refused writes *)

(** X18. [handleCalibrate] issues one write, to the commands path of
    the house, which is none of the paths the page listens at and not the
    config path; the payload is the START_CALIBRATION command stamped with
    [Date.now()].  It calls no setter and changes no state slot. *)
Theorem calibrate_single_command (hno : jsstring) (s : Sys) :
  let s' := exec (handleCalibrate hno) s in
  set_calls (db s') =
    set_calls (db s) ++
    [ (calibrate_path hno,
       JObj [ (str "command", JStr (str "START_CALIBRATION"));
              (str "timestamp", JNum (ms_now (clock s))) ]) ] /\
  ~ In (calibrate_path hno) (page_paths hno) /\
  view s' = view s /\
  setter_calls s' = setter_calls s /\
  listeners (db s') = listeners (db s) /\
  (write_denied (db s) (calibrate_path hno) = false ->
   outcome (handleCalibrate hno) s = Normal tt).
Proof.
  intros s'. subst s'.
  unfold exec, outcome, handleCalibrate, bind, Date_now, set, ref, with_db.
  assert (Hout : ~ In (calibrate_path hno) (page_paths hno)).
  { intros Hin.
    assert (H4 : nth_error (page_paths hno ++ [calibrate_path hno]) 4 =
                 Some (calibrate_path hno)) by reflexivity.
    apply In_nth_error in Hin. destruct Hin as [i Hi].
    assert (Hlt : i < length (page_paths hno))
      by (apply nth_error_Some; rewrite Hi; discriminate).
    assert (Hi' : nth_error (page_paths hno ++ [calibrate_path hno]) i =
                  Some (calibrate_path hno))
      by (rewrite nth_error_app1; [exact Hi | exact Hlt]).
    destruct (device_paths_inj hno hno i 4 _ Hi' H4) as [_ E].
    subst i. cbn in Hlt. lia. }
  destruct (write_denied (db s) (calibrate_path hno));
    cbn [fst snd db set_calls listeners view setter_calls];
    (split; [reflexivity |]); (split; [exact Hout |]);
    repeat split; discriminate.
Qed.

(** X19. Neither write handler catches a refused write: when the store
    refuses the path, [handleSaveConfig] and [handleCalibrate] complete
    abruptly with the store's error, after issuing the write and without
    touching a state slot. *)
Theorem refused_write_propagates
  (hno : jsstring) (newConfig : json) (s : Sys) :
  (write_denied (db s) (config_path hno) = true ->
   outcome (handleSaveConfig hno newConfig) s = Throw write_rejected /\
   view (exec (handleSaveConfig hno newConfig) s) = view s /\
   length (set_calls (db (exec (handleSaveConfig hno newConfig) s))) =
     S (length (set_calls (db s)))) /\
  (write_denied (db s) (calibrate_path hno) = true ->
   outcome (handleCalibrate hno) s = Throw write_rejected /\
   view (exec (handleCalibrate hno) s) = view s /\
   length (set_calls (db (exec (handleCalibrate hno) s))) =
     S (length (set_calls (db s)))).
Proof.
  unfold exec, outcome, handleSaveConfig, handleCalibrate, bind, Date_now,
    set, ref, with_db.
  split; intros ->;
    cbn [fst snd db set_calls view];
    rewrite length_app; cbn [length];
    repeat split; lia.
Qed.
